(** * Lumigator: dataset upload validation and job polling

    A shallow embedding of

    - [backend/services/datasets.py]: the bounded upload validator
      ([validate_file_size]), the format validator
      ([validate_dataset_format], [validate_experiment_dataset]) and the
      composed upload flow ([DatasetService.upload_dataset],
      [DatasetService._save_dataset_to_s3]);
    - [sdk/jobs.py]: the job poller ([Jobs.wait_for_job]).

    Python exceptions are values of [PyExc]; a call either returns or
    raises ([Result]).  Code that touches the file system, the record
    store or the remote job API threads an explicit state.

    The file has two parts: the embedding (definitions), then the
    properties proved about it. *)

From Stdlib Require Import ZArith Lia Ascii.
From stdpp Require Import gmap strings list fin_maps pretty.

Local Open Scope Z_scope.

(* ===================================================================== *)
(** * Part I: the embedding                                               *)
(* ===================================================================== *)

(** ** Python values shared by both files *)

Module Py.

Definition bytes := list Byte.byte.

(** The exception classes that the two files raise or catch.
    [UnicodeDecodeError] is a subclass of [UnicodeError], which is a
    subclass of [ValueError]; every class below is a subclass of
    [Exception].  [LibraryError] stands for any other exception class
    raised by a library (its class name and message). *)
Inductive PyExc : Type :=
| HTTPException (status_code : Z) (detail : string)
| Exception (msg : string)
| ValueError (msg : string)
| UnicodeError (msg : string)
| UnicodeDecodeError (msg : string)
| AttributeError (msg : string)
| FileNotFoundError (msg : string)
| LibraryError (cls : string) (msg : string).

(** [isinstance(e, UnicodeError)], what [except UnicodeError] tests. *)
Definition isinstance_UnicodeError (e : PyExc) : bool :=
  match e with
  | UnicodeError _ | UnicodeDecodeError _ => true
  | _ => false
  end.

(** [isinstance(e, HTTPException)]. *)
Definition isinstance_HTTPException (e : PyExc) : bool :=
  match e with
  | HTTPException _ _ => true
  | _ => false
  end.

Inductive Result (A : Type) : Type :=
| Return (a : A)
| Raise (e : PyExc).
Global Arguments Return {A} a.
Global Arguments Raise {A} e.

(** [fastapi.status] *)
Definition HTTP_403_FORBIDDEN : Z := 403.
Definition HTTP_404_NOT_FOUND : Z := 404.
Definition HTTP_413_REQUEST_ENTITY_TOO_LARGE : Z := 413.
Definition HTTP_422_UNPROCESSABLE_ENTITY : Z := 422.
Definition HTTP_500_INTERNAL_SERVER_ERROR : Z := 500.

(** [len(b)] as a Python int. *)
Definition len {A} (l : list A) : Z := Z.of_nat (length l).

(** A state-and-exception monad: a computation runs on a state [S] and
    returns or raises, leaving a state behind in both cases. *)
Definition M (S A : Type) : Type := S -> Result A * S.

Global Instance M_ret {S} : MRet (M S) := fun A a s => (Return a, s).

Global Instance M_bind {S} : MBind (M S) := fun A B k m s =>
  match m s with
  | (Return a, s') => k a s'
  | (Raise e, s') => (Raise e, s')
  end.

(** [raise e] *)
Definition raise {S A} (e : PyExc) : M S A := fun s => (Raise e, s).

(** [try: body / except <class> as e: handler e], where [catches] is the
    [isinstance] test of the [except] clause. *)
Definition try_except {S A} (body : M S A) (catches : PyExc -> bool)
    (handler : PyExc -> M S A) : M S A := fun s =>
  match body s with
  | (Return a, s') => (Return a, s')
  | (Raise e, s') => if catches e then handler e s' else (Raise e, s')
  end.

(** [try: body / finally: final]: [final] runs on every exit of [body];
    an exception raised by [final] replaces the outcome of [body]. *)
Definition try_finally {S A} (body : M S A) (final : M S unit) : M S A := fun s =>
  match body s with
  | (r, s') =>
      match final s' with
      | (Return _, s'') => (r, s'')
      | (Raise e, s'') => (Raise e, s'')
      end
  end.

(** The outcome of a call that leaves the state as it is. *)
Definition lift {S A} (r : Result A) : M S A := fun s => (r, s).

(** [except Exception]: every modelled class is a subclass. *)
Definition isinstance_Exception (e : PyExc) : bool := true.

End Py.

Import Py.

(** ** pathlib, as the service uses it

    [str(Path(a) / b)] for POSIX paths: a path is a root and a list of
    components; parsing drops empty components and ["."], the root is
    ["//"] after exactly two leading slashes and ["/"] after any other
    number; joining with a path that has a root gives that path. *)

Module PosixPath.

(** The pieces of [s] between slashes; [cell] holds the piece being
    read, backwards. *)
Fixpoint split (cell : string) (s : string) : list string :=
  match s with
  | EmptyString => [String.rev cell]
  | String c s' =>
      if Ascii.eqb c "/"%char then String.rev cell :: split EmptyString s'
      else split (String c cell) s'
  end.

Definition parts (s : string) : list string :=
  List.filter (λ x, negb (String.eqb x "") && negb (String.eqb x ".")) (split EmptyString s).

(** The number of slashes [s] starts with. *)
Fixpoint leading_slashes (s : string) : nat :=
  match s with
  | String c s' => if Ascii.eqb c "/"%char then S (leading_slashes s') else O
  | EmptyString => O
  end.

Definition root (s : string) : string :=
  match leading_slashes s with
  | 0%nat => ""
  | 2%nat => "//"
  | _ => "/"
  end.

(** [str] of a parsed path *)
Definition format (root : string) (tail : list string) : string :=
  match String.eqb root "", tail with
  | true, [] => "."
  | _, _ => root +:+ String.concat "/" tail
  end.

(** [str(Path(a) / b)] *)
Definition joinpath (a b : string) : string :=
  if String.eqb (root b) "" then format (root a) (parts a ++ parts b)
  else format (root b) (parts b).

End PosixPath.

(** ** backend/services/datasets.py *)

Module Datasets.

(** Modelled from the spec: [DatasetFormat] is declared in
    [schemas.datasets], which is not among the sources.  The spec
    describes it as a named format tag of which a single variant,
    "experiment", is defined; a tag is its name. *)
Definition DatasetFormat : Type := string.
Definition EXPERIMENT : DatasetFormat := "experiment".

(** [DatasetRecord] (backend.records.datasets): the attributes the
    service reads and writes.  An id is the text of its UUID. *)
Record DatasetRecord : Type := {
  id : string;
  filename : string;
  format : DatasetFormat;
  size : Z
}.

(** [DatasetResponse] (schemas.datasets), as built from a record by
    [DatasetResponse.model_validate]. *)
Record DatasetResponse : Type := {
  response_id : string;
  response_filename : string;
  response_format : DatasetFormat;
  response_size : Z
}.

Definition model_validate (record : DatasetRecord) : DatasetResponse :=
  {| response_id := id record;
     response_filename := filename record;
     response_format := format record;
     response_size := size record |}.

(** [fastapi.UploadFile]: [file] is the binary stream of the upload,
    given by the chunks that iterating over it yields. *)
Record UploadFile : Type := {
  file : list bytes;
  upload_filename : string
}.

(** What the module takes from its environment: [backend.settings] and
    the library functions whose results the code uses. *)
Class Env : Type := {
  (** settings.MAX_DATASET_SIZE (a pydantic [ByteSize], never negative),
      settings.S3_BUCKET, settings.S3_DATASETS_PREFIX *)
  MAX_DATASET_SIZE : Z;
  S3_BUCKET : string;
  S3_DATASETS_PREFIX : string;
  (** [ByteSize.human_readable(decimal=True)] *)
  human_readable : Z -> string;
  (** [str(s)] of a set of strings, as an f-string renders it *)
  set_str : gset string -> string;
  (** [str(e)] of an exception *)
  exc_str : PyExc -> string;
  (** reading the header row of an open text file,
      [csv.DictReader(f).fieldnames], from the bytes of the file: the
      text layer may raise while decoding, an empty file has no header
      row ([None]) *)
  DictReader_fieldnames : bytes -> Result (option (list string));
  (** [datasets.load_dataset("csv", data_files=fname, split="train")] on
      the local file system *)
  HFDataset : Type;
  load_dataset : string -> gmap string bytes -> Result HFDataset;
  (** [dataset.save_to_disk(path, fs=s3_filesystem)] on the object store *)
  S3FileSystem : Type;
  save_to_disk : HFDataset -> string -> S3FileSystem -> Result unit * S3FileSystem
}.

(** The state the upload flow runs on: the local files by name, the
    record store by id, the object store. *)
Record World `{Env} : Type := {
  files : gmap string bytes;
  records : gmap string DatasetRecord;
  s3 : S3FileSystem
}.

Definition ALLOWED_EXPERIMENT_FIELDS : gset string := {[ "examples"; "ground_truth" ]}.
Definition REQUIRED_EXPERIMENT_FIELDS : gset string := {[ "examples" ]}.

Section service.

Context `{Env}.

Definition set_files (f : gmap string bytes -> gmap string bytes) (w : World) : World :=
  {| files := f (files w); records := records w; s3 := s3 w |}.

Definition set_records
    (f : gmap string DatasetRecord -> gmap string DatasetRecord) (w : World) : World :=
  {| files := files w; records := f (records w); s3 := s3 w |}.

(** *** validate_file_size *)

(** [output.write(chunk)] on a buffered binary file: the chunk is
    appended and its length returned. *)
Definition write (output : bytes) (chunk : bytes) : Z * bytes :=
  (len chunk, output ++ chunk).

(** The [for chunk in input] loop.  [input] holds the chunks the
    iterator has not yielded yet, [output] the bytes written so far;
    both are returned next to the outcome, as the two objects are left
    when the function returns or raises. *)
Fixpoint validate_file_size_from
    (actual_size : Z) (input : list bytes) (output : bytes) (max_size : Z)
  : Result Z * (list bytes * bytes) :=
  match input with
  | [] => (Return actual_size, ([], output))
  | chunk :: input' =>
      let '(n, output') := write output chunk in
      let actual_size' := actual_size + n in
      if actual_size' >? max_size then
        (Raise (HTTPException HTTP_413_REQUEST_ENTITY_TOO_LARGE
                  ("File upload exceeds the " +:+ human_readable max_size
                   +:+ " limit.")),
         (input', output'))
      else validate_file_size_from actual_size' input' output' max_size
  end.

Definition validate_file_size (input : list bytes) (output : bytes) (max_size : Z)
  : Result Z * (list bytes * bytes) :=
  validate_file_size_from 0 input output max_size.

(** Total number of bytes of a sequence of chunks. *)
Definition total_length (chunks : list bytes) : Z := len (concat chunks).

(** *** validate_experiment_dataset *)

(** [Path(filename).open()]: the bytes behind the text file. *)
Definition open (filename : string) : M World bytes := fun w =>
  match files w !! filename with
  | Some content => (Return content, w)
  | None => (Raise (FileNotFoundError filename), w)
  end.

(** [set(reader.fieldnames or [])] *)
Definition field_set (fieldnames : option (list string)) : gset string :=
  list_to_set (default [] fieldnames).

(** The body of the [with] block, from [reader.fieldnames] on. *)
Definition check_experiment_fields (fieldnames : option (list string)) : Result unit :=
  let fields := field_set fieldnames in
  let missing_fields := REQUIRED_EXPERIMENT_FIELDS ∖ fields in
  if bool_decide (missing_fields ≠ ∅) then
    Raise (HTTPException HTTP_403_FORBIDDEN
             ("Experiment dataset is missing the required fields: "
              +:+ set_str missing_fields +:+ "."))
  else
    let extra_fields := fields ∖ ALLOWED_EXPERIMENT_FIELDS in
    if bool_decide (extra_fields ≠ ∅) then
      Raise (HTTPException HTTP_403_FORBIDDEN
               ("Experiment dataset contains the invalid fields: "
                +:+ set_str extra_fields +:+ ". "
                +:+ "Only " +:+ set_str ALLOWED_EXPERIMENT_FIELDS
                +:+ " are allowed."))
    else Return tt.

Definition validate_experiment_dataset (filename : string) : M World unit :=
  f ← open filename;
  fieldnames ← lift (DictReader_fieldnames f);
  lift (check_experiment_fields fieldnames).

(** *** validate_dataset_format *)

Definition validate_dataset_format (filename : string) (format : DatasetFormat)
  : M World unit :=
  try_except
    (if String.eqb format EXPERIMENT then validate_experiment_dataset filename
     else raise (ValueError ("Unknown dataset format: " +:+ format)))
    isinstance_UnicodeError
    (λ e, raise (HTTPException HTTP_422_UNPROCESSABLE_ENTITY
                   "Dataset is not a valid CSV file.")).

(** *** DatasetRepository *)

(** Modelled from the spec: [DatasetRepository] (backend.repositories)
    is not among the sources.  The spec gives
    [Repository.create(metadata) -> record] and [Repository.delete(id)]:
    [create] stores a record under an id not in use and returns it,
    [delete] removes the record stored under the id. *)
Definition repo_create (filename : string) (format : DatasetFormat) (size : Z)
  : M World DatasetRecord := fun w =>
  let record := {| id := fresh (dom (records w)); filename := filename;
                   format := format; size := size |} in
  (Return record, set_records (insert (id record) record) w).

Definition repo_delete (record_id : string) : M World unit := fun w =>
  (Return tt, set_records (delete record_id) w).

(** *** DatasetService *)

Definition _raise_unhandled_exception {A} (e : PyExc) : M World A :=
  raise (HTTPException HTTP_500_INTERNAL_SERVER_ERROR (exc_str e)).

Definition _get_s3_key (dataset_id : string) (filename : string) : string :=
  S3_DATASETS_PREFIX +:+ "/" +:+ dataset_id +:+ "/" +:+ filename.

(** [record.id] and [record.filename]; on [None] the attribute access
    raises. *)
Definition attributes (record : option DatasetRecord) : M World DatasetRecord :=
  match record with
  | Some r => mret r
  | None => raise (AttributeError "'NoneType' object has no attribute 'id'")
  end.

(** The two library calls of [_save_dataset_to_s3], run on the state. *)
Definition call_load_dataset (fname : string) : M World HFDataset := fun w =>
  (load_dataset fname (files w), w).

Definition call_save_to_disk (dataset_hf : HFDataset) (dataset_path : string)
  : M World unit := fun w =>
  let '(res, s3') := save_to_disk dataset_hf dataset_path (s3 w) in
  (res, {| files := files w; records := records w; s3 := s3' |}).

Definition _save_dataset_to_s3 (temp_fname : string) (record : option DatasetRecord)
  : M World unit :=
  try_except
    (dataset_hf ← call_load_dataset temp_fname;
     r ← attributes record;
     let dataset_key := _get_s3_key (id r) (filename r) in
     let dataset_path := "s3://" +:+ PosixPath.joinpath S3_BUCKET dataset_key in
     call_save_to_disk dataset_hf dataset_path)
    isinstance_Exception
    (λ e,
       match record with
       | Some r => repo_delete (id r)
       | None => mret tt
       end;;
       _raise_unhandled_exception e).

(** [NamedTemporaryFile(delete=False)]: a new, empty file under a name
    not in use. *)
Definition NamedTemporaryFile : M World string := fun w =>
  let name := fresh (dom (files w)) in
  (Return name, set_files (insert name []) w).

(** [with temp as buffer: ... validate_file_size(input, buffer, max_size)]:
    what was written stays in the file when the block is left, also
    when it is left by the exception. *)
Definition with_buffer (temp : string) (input : list bytes) (max_size : Z)
  : M World Z := fun w =>
  let '(res, (_, output)) :=
    validate_file_size input (default [] (files w !! temp)) max_size in
  (res, set_files (insert temp output) w).

(** [Path(name).unlink()] *)
Definition unlink (name : string) : M World unit := fun w =>
  match files w !! name with
  | Some _ => (Return tt, set_files (delete name) w)
  | None => (Raise (FileNotFoundError name), w)
  end.

Definition upload_dataset (dataset : UploadFile) (format : DatasetFormat)
  : M World DatasetResponse :=
  temp ← NamedTemporaryFile;
  record ← try_finally
    (actual_size ← with_buffer temp (file dataset) MAX_DATASET_SIZE;
     validate_dataset_format temp format;;
     record ← repo_create (upload_filename dataset) format actual_size;
     _save_dataset_to_s3 temp (Some record);;
     mret record)
    (unlink temp);
  mret (model_validate record).

End service.

End Datasets.

(** ** sdk/jobs.py *)

Module Jobs.

(** [response.json()] of the job API, for a request that is answered
    with a document that has a status: the status and the rest of the
    document.  Requests that raise and documents without status are in
    [JobsFaults] below, which agrees with this module on clients that
    answer. *)
Record JobInfo : Type := {
  status : string;
  payload : string
}.

(** What a call of [wait_for_job] does to the outside: requests to the
    job API (with the document received) and suspensions. *)
Inductive Event : Type :=
| Request (job : string) (response : JobInfo)
| Sleep (seconds : Z).

Definition is_request (e : Event) : bool :=
  match e with Request _ _ => true | Sleep _ => false end.

Definition is_sleep (e : Event) : bool :=
  match e with Sleep _ => true | Request _ _ => false end.

(** Number of status observations, and of suspensions, in a history. *)
Definition observations (h : list Event) : nat := length (List.filter is_request h).
Definition sleeps (h : list Event) : nat := length (List.filter is_sleep h).

(** [self.client.get_ray_job_response]: the document the API answers
    with, for a job id, after the events so far. *)
Definition ApiClient : Type := string -> list Event -> JobInfo.

(** [len(range(start, stop))] *)
Definition range_length (start stop : Z) : nat := Z.to_nat (stop - start).

(** The [for] loop of [wait_for_job], [rounds] iterations from the
    history [h]: [Some] outcome when the body returns or raises, [None]
    when the loop runs to its end. *)
Fixpoint poll (client : ApiClient) (id : string) (poll_wait : Z)
    (rounds : nat) (h : list Event) : option (Result JobInfo) * list Event :=
  match rounds with
  | O => (None, h)
  | S rounds' =>
      let jobinfo := client id h in
      let h := h ++ [Request id jobinfo] in
      if String.eqb (status jobinfo) "PENDING" || String.eqb (status jobinfo) "RUNNING"
      then poll client id poll_wait rounds' (h ++ [Sleep poll_wait])
      else if String.eqb (status jobinfo) "FAILED"
      then (Some (Raise (Exception ("Job " +:+ id +:+ " failed"))), h)
      else if String.eqb (status jobinfo) "STOPPED"
      then (Some (Raise (Exception ("Job " +:+ id +:+ " stopped"))), h)
      else if String.eqb (status jobinfo) "SUCCEEDED"
      then (Some (Return jobinfo), h)
      else poll client id poll_wait rounds' h
  end.

(** The message of the exception raised after the loop.  Only the first
    of the two adjacent literals is an f-string: the braces of the
    second one are text. *)
Definition timeout_message (id : string) : string :=
  "Job " +:+ id +:+ " did not complete in the polling "
  +:+ "time (retries: {retries}, poll_wait: {poll_wait})".

Definition wait_for_job (client : ApiClient) (id : string)
    (retries : Z) (poll_wait : Z) : M (list Event) JobInfo := fun h =>
  match poll client id poll_wait (range_length 1 retries) h with
  | (Some outcome, h') => (outcome, h')
  | (None, h') => (Raise (Exception (timeout_message id)), h')
  end.

(** The statuses on which the loop waits, and those on which it ends. *)
Definition non_terminal (s : string) : Prop := s = "PENDING" \/ s = "RUNNING".
Definition terminal (s : string) : Prop :=
  s = "FAILED" \/ s = "STOPPED" \/ s = "SUCCEEDED".

(** What the loop decides on the observation [j] of a terminal status,
    for the job [id]. *)
Definition decided (id : string) (j : JobInfo) (outcome : Result JobInfo) : Prop :=
  (status j = "SUCCEEDED" -> outcome = Return j) /\
  (status j = "FAILED" -> outcome = Raise (Exception ("Job " +:+ id +:+ " failed"))) /\
  (status j = "STOPPED" -> outcome = Raise (Exception ("Job " +:+ id +:+ " stopped"))).

(** An event other than the observation of a terminal status. *)
Definition not_final (e : Event) : Prop :=
  match e with
  | Request _ j => ~ terminal (status j)
  | Sleep _ => True
  end.

End Jobs.

(** ** Sample environments

    Concrete stand-ins for the settings and the libraries, on which the
    embedding runs. *)

Module Sample.

Import Datasets.

Definition is_ascii (b : Byte.byte) : bool := (Byte.to_N b <? 128)%N.

Definition text_of (content : bytes) : string :=
  String.string_of_list_ascii (map Ascii.ascii_of_byte content).

(** The text up to the first line feed. *)
Fixpoint first_line (s : string) : string :=
  match s with
  | EmptyString => EmptyString
  | String c s' => if Ascii.eqb c "010"%char then EmptyString else String c (first_line s')
  end.

(** The comma-separated cells of a line without quoting. *)
Fixpoint cells (cell : string) (s : string) : list string :=
  match s with
  | EmptyString => [String.rev cell]
  | String c s' =>
      if Ascii.eqb c ","%char then String.rev cell :: cells EmptyString s'
      else cells (String c cell) s'
  end.

(** A header reader for ASCII files. *)
Definition ascii_fieldnames (content : bytes) : Result (option (list string)) :=
  if forallb is_ascii content then
    match content with
    | [] => Return None
    | _ => Return (Some (cells EmptyString (first_line (text_of content))))
    end
  else Raise (UnicodeDecodeError "'utf-8' codec can't decode byte").

Definition message_of (e : PyExc) : string :=
  match e with
  | HTTPException _ detail => detail
  | Exception msg | ValueError msg | UnicodeError msg | UnicodeDecodeError msg
  | AttributeError msg | FileNotFoundError msg | LibraryError _ msg => msg
  end.

(** An environment with a limit of [limit] bytes.  The object store is a
    map from paths to contents; it accepts writes when [s3_up] holds and
    refuses them otherwise. *)
Definition env (limit : Z) (s3_up : bool) : Env := {|
  MAX_DATASET_SIZE := limit;
  S3_BUCKET := "lumigator-storage";
  S3_DATASETS_PREFIX := "datasets";
  human_readable := λ n, pretty n +:+ "B";
  set_str := λ s, "{" +:+ String.concat ", " (elements s) +:+ "}";
  exc_str := message_of;
  DictReader_fieldnames := ascii_fieldnames;
  HFDataset := bytes;
  load_dataset := λ fname fs,
    match fs !! fname with
    | Some content => Return content
    | None => Raise (FileNotFoundError fname)
    end;
  S3FileSystem := gmap string bytes;
  save_to_disk := λ dataset path store,
    if s3_up then (Return tt, <[path := dataset]> store)
    else (Raise (LibraryError "ClientError" "connection refused"), store)
|}.

(** A line feed, and the lines of a file put together. *)
Definition LF : string := String "010"%char EmptyString.

Definition bytes_of (s : string) : bytes :=
  map Ascii.byte_of_ascii (String.list_ascii_of_string s).

Definition empty_world `{Env} (store : S3FileSystem) : World :=
  {| files := ∅; records := ∅; s3 := store |}.

(** A world with one local file. *)
Definition one_file `{Env} (name : string) (content : bytes) (store : S3FileSystem)
  : World :=
  {| files := {[ name := content ]}; records := ∅; s3 := store |}.

(** Some file contents: a well-formed experiment dataset, one without
    the required column, one with a column that is not allowed, one
    with neither, and one that is not text. *)
Definition good_csv : bytes :=
  bytes_of ("examples,ground_truth" +:+ LF +:+ "hello,world" +:+ LF).
Definition no_examples_csv : bytes :=
  bytes_of ("ground_truth" +:+ LF +:+ "world" +:+ LF).
Definition extra_csv : bytes :=
  bytes_of ("examples,extra" +:+ LF +:+ "hello,there" +:+ LF).
Definition no_examples_extra_csv : bytes :=
  bytes_of ("ground_truth,extra" +:+ LF +:+ "world,there" +:+ LF).
Definition binary_blob : bytes := [Byte.x89; Byte.x50; Byte.xff; Byte.x00; Byte.xfe].

(** Job API clients: one whose job never leaves RUNNING, and one that
    answers from a script of statuses by the number of requests made so
    far (RUNNING once the script is used up). *)
Definition always_running : Jobs.ApiClient :=
  λ _ _, {| Jobs.status := "RUNNING"; Jobs.payload := "" |}.

Definition scripted (script : list string) : Jobs.ApiClient :=
  λ _ h, {| Jobs.status := nth (Jobs.observations h) script "RUNNING";
            Jobs.payload := "" |}.

End Sample.

(** ** backend/services/datasets.py, the other service methods *)

Module Service.

Import Datasets.

(** One entry of the ["Contents"] list of a listing, and the listing
    [s3_client.list_objects_v2] answers with: both keys can be absent
    from the document. *)
Record S3Object : Type := { Key : string }.

Record ListObjectsV2 : Type := {
  KeyCount : option Z;
  Contents : option (list S3Object)
}.

(** [DatasetDownloadResponse] (schemas.datasets) *)
Record DatasetDownloadResponse : Type := {
  download_id : string;
  download_urls : list string
}.

(** The library calls of the other service methods, and the setting they
    read. *)
Class S3Ops `{Env} : Type := {
  (** settings.S3_URL_EXPIRATION *)
  S3_URL_EXPIRATION : Z;
  (** [s3_filesystem.rm(path, recursive=True)] *)
  rm : string -> S3FileSystem -> Result unit * S3FileSystem;
  (** [s3_client.list_objects_v2(Bucket=bucket, Prefix=prefix)] *)
  list_objects_v2 : string -> string -> S3FileSystem -> Result ListObjectsV2;
  (** [s3_client.generate_presigned_url("get_object",
      Params={"Bucket": bucket, "Key": key}, ExpiresIn=seconds)] *)
  generate_presigned_url : string -> string -> Z -> Result string
}.

(** A record store in which every record is stored under its own id. *)
Definition store_ok `{Env} (w : World) : Prop :=
  forall k r, records w !! k = Some r -> id r = k.

Section methods.

Context `{S3Ops}.

(** Modelled from the spec: [DatasetRepository.get] belongs to the
    repository, which is not among the sources.  Next to
    [Repository.create] and [Repository.delete] of the spec, and as
    [_get_dataset_record] uses it, it answers with the record stored
    under the id, or with [None]. *)
Definition repo_get (dataset_id : string) : M World (option DatasetRecord) := fun w =>
  (Return (records w !! dataset_id), w).

Definition _raise_not_found {A} (dataset_id : string) : M World A :=
  raise (HTTPException HTTP_404_NOT_FOUND
           ("Dataset '" +:+ dataset_id +:+ "' not found.")).

Definition _get_dataset_record (dataset_id : string) : M World DatasetRecord :=
  record ← repo_get dataset_id;
  match record with
  | None => _raise_not_found dataset_id
  | Some r => mret r
  end.

Definition get_dataset (dataset_id : string) : M World DatasetResponse :=
  record ← _get_dataset_record dataset_id;
  mret (model_validate record).

Definition get_dataset_s3_path (dataset_id : string) : M World string :=
  record ← _get_dataset_record dataset_id;
  let dataset_key := _get_s3_key (id record) (filename record) in
  let dataset_path := "s3://" +:+ PosixPath.joinpath S3_BUCKET dataset_key in
  mret dataset_path.

Definition call_rm (dataset_path : string) : M World unit := fun w =>
  let '(res, s3') := rm dataset_path (s3 w) in
  (res, {| files := files w; records := records w; s3 := s3' |}).

Definition delete_dataset (dataset_id : string) : M World unit :=
  record ← _get_dataset_record dataset_id;
  try_except
    (let dataset_key := _get_s3_key (id record) (filename record) in
     let dataset_path := "s3://" +:+ PosixPath.joinpath S3_BUCKET dataset_key in
     call_rm dataset_path;;
     repo_delete (id record))
    isinstance_Exception
    (λ e, _raise_unhandled_exception e).

(** The loop over [s3_response["Contents"]], from the urls collected so
    far. *)
Fixpoint presign (objects : list S3Object) (download_urls : list string)
  : Result (list string) :=
  match objects with
  | [] => Return download_urls
  | s3_object :: objects' =>
      match generate_presigned_url S3_BUCKET (Key s3_object) S3_URL_EXPIRATION with
      | Return download_url => presign objects' (download_urls ++ [download_url])
      | Raise e => Raise e
      end
  end.

Definition get_dataset_download (dataset_id : string) : M World DatasetDownloadResponse :=
  record ← _get_dataset_record dataset_id;
  let dataset_key := _get_s3_key dataset_id (filename record) in
  download_urls ← try_except
    (s3_response ← (λ w, (list_objects_v2 S3_BUCKET dataset_key (s3 w), w)) : M World _;
     (if bool_decide (KeyCount s3_response = Some 0)
      then raise (HTTPException HTTP_404_NOT_FOUND
                    ("No files found with prefix '" +:+ dataset_key +:+ "'."))
      else mret tt);;
     contents ← match Contents s3_response with
                | Some contents => mret contents
                | None => raise (LibraryError "KeyError" "'Contents'")
                end;
     lift (presign contents []))
    isinstance_Exception
    (λ e, _raise_unhandled_exception e);
  mret {| download_id := dataset_id; download_urls := download_urls |}.

End methods.

End Service.

(** ** sdk/jobs.py, events of a run *)

Module JobsTrace.

Import Jobs.

(** An event of a call for the job [id] with the delay [poll_wait]: a
    request for that job, or a suspension of that length. *)
Definition own_event (id : string) (poll_wait : Z) (e : Event) : Prop :=
  match e with
  | Request job _ => job = id
  | Sleep seconds => seconds = poll_wait
  end.

(** A status that is none of the five the loop compares with. *)
Definition unknown (s : string) : Prop := ~ non_terminal s /\ ~ terminal s.

End JobsTrace.

(** ** Sample object store operations *)

Module SampleService.

Import Datasets Service.

(** The objects of a store whose path is [root] followed by a key that
    starts with [start], in the order of the map; the key is the path
    without [root]. *)
Definition objects_under (root start : string) (store : gmap string bytes)
  : list S3Object :=
  map (λ path, {| Key := String.substring (String.length root)
                           (String.length path - String.length root) path |})
      (List.filter (String.prefix (root +:+ start)) (map fst (map_to_list store))).

(** Operations on the store of [Sample.env]: removal and listing by
    path, and urls made from the bucket and the key.  The first two fail
    when [s3_up] does not hold. *)
Definition sample_rm (s3_up : bool) (path : string) (store : gmap string bytes)
  : Result unit * gmap string bytes :=
  if s3_up then (Return tt, delete path store)
  else (Raise (LibraryError "ClientError" "connection refused"), store).

Definition sample_list (s3_up : bool) (bucket start : string) (store : gmap string bytes)
  : Result ListObjectsV2 :=
  if s3_up then
    let objects := objects_under ("s3://" +:+ bucket +:+ "/") start store in
    Return {| KeyCount := Some (len objects);
              Contents := match objects with [] => None | _ => Some objects end |}
  else Raise (LibraryError "ClientError" "connection refused").

Definition sample_url (bucket key : string) (seconds : Z) : Result string :=
  Return ("https://" +:+ bucket +:+ "/" +:+ key +:+ "?expires=" +:+ pretty seconds).

Definition s3ops (limit : Z) (s3_up : bool) : @S3Ops (Sample.env limit s3_up) :=
  @Build_S3Ops (Sample.env limit s3_up) 3600
    (sample_rm s3_up) (sample_list s3_up) sample_url.

(** A header reader that refuses NUL bytes as the csv module does, with
    an error of its own class, and the sample environment with it. *)
Definition nul_fieldnames (content : bytes) : Result (option (list string)) :=
  if existsb (λ b, (Byte.to_N b =? 0)%N) content
  then Raise (LibraryError "_csv.Error" "line contains NUL")
  else Sample.ascii_fieldnames content.

Definition env_nul (limit : Z) (s3_up : bool) : Env := {|
  MAX_DATASET_SIZE := limit;
  S3_BUCKET := S3_BUCKET (Env := Sample.env limit s3_up);
  S3_DATASETS_PREFIX := S3_DATASETS_PREFIX (Env := Sample.env limit s3_up);
  human_readable := human_readable (Env := Sample.env limit s3_up);
  set_str := set_str (Env := Sample.env limit s3_up);
  exc_str := exc_str (Env := Sample.env limit s3_up);
  DictReader_fieldnames := nul_fieldnames;
  HFDataset := HFDataset (Env := Sample.env limit s3_up);
  load_dataset := load_dataset (Env := Sample.env limit s3_up);
  S3FileSystem := S3FileSystem (Env := Sample.env limit s3_up);
  save_to_disk := save_to_disk (Env := Sample.env limit s3_up)
|}.

(** The sample upload, and the state with its record and its object,
    in the sample environment of 100 bytes. *)
Definition sample_dataset : UploadFile :=
  {| file := [Sample.good_csv]; upload_filename := "data.csv" |}.

Definition stored_record : DatasetRecord :=
  {| id := "0"; filename := "data.csv"; format := EXPERIMENT; size := 34 |}.

Definition stored_path : string := "s3://lumigator-storage/datasets/0/data.csv".

Definition stored_world (s3_up : bool) : @World (Sample.env 100 s3_up) :=
  {| files := ∅; records := {[ "0" := stored_record ]};
     s3 := {[ stored_path := Sample.good_csv ]} |}.

(** The same record without its object in the store. *)
Definition record_only_world (s3_up : bool) : @World (Sample.env 100 s3_up) :=
  {| files := ∅; records := {[ "0" := stored_record ]}; s3 := ∅ |}.

(** The url the sample store makes for a key. *)
Definition sample_url_of (key : string) : string :=
  "https://lumigator-storage/" +:+ key +:+ "?expires=3600".

(** A job API client whose job has a status the poller does not know. *)
Definition always_unknown : Jobs.ApiClient :=
  λ _ _, {| Jobs.status := "UNKNOWN"; Jobs.payload := "" |}.

End SampleService.

(** ** A text layer that decodes as it reads

    The text file object decodes the file block by block, as far as it
    is read, and [csv.DictReader] reads one row for the field names.
    This sample reader does the same with blocks of [CHUNK_SIZE] bytes
    (io.TextIOWrapper._CHUNK_SIZE) and the codec of the sample
    environment. *)

Module SampleText.

Import Datasets.

Definition CHUNK_SIZE : nat := Z.to_nat 8192.

(** The whole buffer is text in the codec of the sample environment. *)
Definition decodable (content : bytes) : bool := forallb Sample.is_ascii content.

Definition has_line_feed (block : bytes) : bool :=
  existsb (λ b, (Byte.to_N b =? 10)%N) block.

(** Reading one line: blocks are read and decoded until one of them has
    a line feed or the file ends.  [seen] holds the bytes decoded so far,
    [rest] the bytes not read yet; [blocks] bounds the number of blocks. *)
Fixpoint read_line (blocks : nat) (seen rest : bytes) : Result bytes :=
  match blocks with
  | O => Return seen
  | S blocks' =>
      let block := take CHUNK_SIZE rest in
      if decodable block then
        if has_line_feed block || (length rest <=? CHUNK_SIZE)%nat
        then Return (seen ++ block)
        else read_line blocks' (seen ++ block) (drop CHUNK_SIZE rest)
      else Raise (UnicodeDecodeError "'utf-8' codec can't decode byte")
  end.

(** The field names of the first row, read as above. *)
Definition lazy_fieldnames (content : bytes) : Result (option (list string)) :=
  match content with
  | [] => Return None
  | _ =>
      match read_line (length content) [] content with
      | Return seen =>
          Return (Some (Sample.cells EmptyString (Sample.first_line (Sample.text_of seen))))
      | Raise e => Raise e
      end
  end.

Definition env_lazy (limit : Z) (s3_up : bool) : Env := {|
  MAX_DATASET_SIZE := limit;
  S3_BUCKET := S3_BUCKET (Env := Sample.env limit s3_up);
  S3_DATASETS_PREFIX := S3_DATASETS_PREFIX (Env := Sample.env limit s3_up);
  human_readable := human_readable (Env := Sample.env limit s3_up);
  set_str := set_str (Env := Sample.env limit s3_up);
  exc_str := exc_str (Env := Sample.env limit s3_up);
  DictReader_fieldnames := lazy_fieldnames;
  HFDataset := HFDataset (Env := Sample.env limit s3_up);
  load_dataset := load_dataset (Env := Sample.env limit s3_up);
  S3FileSystem := S3FileSystem (Env := Sample.env limit s3_up);
  save_to_disk := save_to_disk (Env := Sample.env limit s3_up)
|}.

(** A file with a well-formed header row, 10000 bytes of text after it
    and then a byte that is text in no codec of the ASCII family; and a
    file whose first byte is such a byte. *)
Definition late_bad_byte : bytes :=
  Sample.bytes_of ("examples,ground_truth" +:+ Sample.LF)
  ++ repeat Byte.x61 (Z.to_nat 10000) ++ [Byte.xff].

Definition early_bad_byte : bytes :=
  Byte.xff :: Sample.bytes_of ("examples,ground_truth" +:+ Sample.LF).

End SampleText.

(** ** sdk/jobs.py, with the failures of the job API

    [Jobs.wait_for_job] above runs against a client that always answers
    with a document that has a status.  Here the request, or the decoding
    of its answer, can raise, and the document can lack the ["status"]
    key. *)

Module JobsFaults.

(** [response.json()] *)
Record Document : Type := {
  doc_status : option string;
  doc_payload : string
}.

(** A request answered with a document, a request that raised (in
    [get_ray_job_response] or in [response.json()]), a suspension. *)
Inductive Event : Type :=
| Answered (job : string) (response : Document)
| Refused (job : string) (e : PyExc)
| Sleep (seconds : Z).

Definition ApiClient : Type := string -> list Event -> Result Document.

(** The [for] loop of [wait_for_job]; [jobinfo["status"]] raises
    [KeyError] when the key is absent. *)
Fixpoint poll (client : ApiClient) (id : string) (poll_wait : Z)
    (rounds : nat) (h : list Event) : option (Result Document) * list Event :=
  match rounds with
  | O => (None, h)
  | S rounds' =>
      match client id h with
      | Raise e => (Some (Raise e), h ++ [Refused id e])
      | Return jobinfo =>
          let h := h ++ [Answered id jobinfo] in
          match doc_status jobinfo with
          | None => (Some (Raise (LibraryError "KeyError" "'status'")), h)
          | Some status =>
              if String.eqb status "PENDING" || String.eqb status "RUNNING"
              then poll client id poll_wait rounds' (h ++ [Sleep poll_wait])
              else if String.eqb status "FAILED"
              then (Some (Raise (Exception ("Job " +:+ id +:+ " failed"))), h)
              else if String.eqb status "STOPPED"
              then (Some (Raise (Exception ("Job " +:+ id +:+ " stopped"))), h)
              else if String.eqb status "SUCCEEDED"
              then (Some (Return jobinfo), h)
              else poll client id poll_wait rounds' h
          end
      end
  end.

Definition wait_for_job (client : ApiClient) (id : string)
    (retries : Z) (poll_wait : Z) : M (list Event) Document := fun h =>
  match poll client id poll_wait (Jobs.range_length 1 retries) h with
  | (Some outcome, h') => (outcome, h')
  | (None, h') => (Raise (Exception (Jobs.timeout_message id)), h')
  end.



(** The two models side by side: a document with a status, an event,
    and a client that always answers. *)
Definition document (j : Jobs.JobInfo) : Document :=
  {| doc_status := Some (Jobs.status j); doc_payload := Jobs.payload j |}.

Definition event (e : Jobs.Event) : Event :=
  match e with
  | Jobs.Request job j => Answered job (document j)
  | Jobs.Sleep seconds => Sleep seconds
  end.

Definition jobinfo (d : Document) : Jobs.JobInfo :=
  {| Jobs.status := default "" (doc_status d); Jobs.payload := doc_payload d |}.

Fixpoint history (h : list Event) : list Jobs.Event :=
  match h with
  | [] => []
  | Answered job d :: h' => Jobs.Request job (jobinfo d) :: history h'
  | Refused _ _ :: h' => history h'
  | Sleep seconds :: h' => Jobs.Sleep seconds :: history h'
  end.

Definition answering (client : Jobs.ApiClient) : ApiClient :=
  λ id h, Return (document (client id (history h))).



End JobsFaults.

(* ===================================================================== *)
(** * Part II: properties                                                 *)
(* ===================================================================== *)

(** ** Lengths *)

Lemma len_nonneg {A} (l : list A) : 0 <= len l.
Proof. unfold len. lia. Qed.

Lemma len_app {A} (l k : list A) : len (l ++ k) = len l + len k.
Proof. unfold len. rewrite length_app. lia. Qed.

(** ** Paths *)

(** The join on some paths: plain names are put together with a slash;
    empty components, ["."] and a trailing slash are dropped; a key with
    a root replaces the bucket; [".."] stays. *)
Lemma joinpath_examples :
  PosixPath.joinpath "lumigator-storage" "datasets/0/data.csv"
    = "lumigator-storage/datasets/0/data.csv" /\
  PosixPath.joinpath "lumigator-storage" "datasets/0/a//b.csv"
    = "lumigator-storage/datasets/0/a/b.csv" /\
  PosixPath.joinpath "lumigator-storage" "datasets/0/./a.csv"
    = "lumigator-storage/datasets/0/a.csv" /\
  PosixPath.joinpath "lumigator-storage" "datasets/0/dir/"
    = "lumigator-storage/datasets/0/dir" /\
  PosixPath.joinpath "lumigator-storage" "/datasets/0/a.csv" = "/datasets/0/a.csv" /\
  PosixPath.joinpath "lumigator-storage" "datasets/0/../a.csv"
    = "lumigator-storage/datasets/0/../a.csv" /\
  PosixPath.joinpath "" "" = ".".
Proof. repeat split; reflexivity. Qed.

(** ** The size guard *)

Module SizeGuardFacts.

Import Datasets.

Section size_guard.

Context `{Env}.

Lemma total_length_nil : total_length [] = 0.
Proof. reflexivity. Qed.

Lemma total_length_cons c cs : total_length (c :: cs) = len c + total_length cs.
Proof. unfold total_length. simpl. apply len_app. Qed.

Lemma total_length_nonneg cs : 0 <= total_length cs.
Proof. apply len_nonneg. Qed.

(** The loop on a source that fits under the limit from where it
    stands: every chunk is read and written, the total is returned. *)
Lemma validate_file_size_from_fits input : forall actual_size output max_size,
  actual_size + total_length input <= max_size ->
  validate_file_size_from actual_size input output max_size =
    (Return (actual_size + total_length input), ([], output ++ concat input)).
Proof.
  induction input as [|chunk input IH]; intros actual_size output max_size Hfit.
  - simpl. rewrite total_length_nil, Z.add_0_r, app_nil_r. reflexivity.
  - rewrite total_length_cons in Hfit. simpl.
    pose proof (total_length_nonneg input) as Hnn.
    destruct (Z.gtb_spec (actual_size + len chunk) max_size) as [Hgt|Hle]; [lia|].
    rewrite IH by lia.
    rewrite total_length_cons, <- app_assoc. do 2 f_equal. lia.
Qed.

(** The loop on a source that does not fit: it stops at the first chunk
    that takes the running total over the limit. *)
Lemma validate_file_size_from_overflow input : forall actual_size output max_size,
  actual_size <= max_size ->
  actual_size + total_length input > max_size ->
  exists before chunk after,
    input = before ++ chunk :: after /\
    actual_size + total_length before <= max_size /\
    max_size < actual_size + total_length (before ++ [chunk]) /\
    validate_file_size_from actual_size input output max_size =
      (Raise (HTTPException 413
                ("File upload exceeds the " +:+ human_readable max_size
                 +:+ " limit.")),
       (after, output ++ concat (before ++ [chunk]))).
Proof.
  induction input as [|chunk input IH]; intros actual_size output max_size Hle Hgt.
  - rewrite total_length_nil in Hgt. lia.
  - rewrite total_length_cons in Hgt. simpl.
    destruct (Z.gtb_spec (actual_size + len chunk) max_size) as [Hover|Hfit].
    + exists [], chunk, input. simpl.
      rewrite total_length_nil, total_length_cons, total_length_nil, app_nil_r.
      repeat split; try reflexivity; lia.
    + destruct (IH (actual_size + len chunk) (output ++ chunk) max_size)
        as (before & c & after & -> & Hb & Hc & Hrun); [lia | lia |].
      exists (chunk :: before), c, after.
      rewrite Hrun. simpl.
      rewrite !total_length_cons, <- !app_assoc.
      repeat split; try reflexivity; lia.
Qed.

(** C1.  A source whose total length exceeds the limit (a byte size,
    so not negative) makes [validate_file_size] raise the 413
    exception whose detail carries the human-readable limit.  The
    source splits as [before ++ chunk :: after], where [before] still
    fits and [chunk] is the first one that takes the total over the
    limit: the destination has received exactly [before] and [chunk],
    and [after] is left unread in the source. *)
Theorem validate_file_size_over_limit input output max_size :
  0 <= max_size ->
  total_length input > max_size ->
  exists before chunk after,
    input = before ++ chunk :: after /\
    total_length before <= max_size /\
    max_size < total_length (before ++ [chunk]) /\
    validate_file_size input output max_size =
      (Raise (HTTPException 413
                ("File upload exceeds the " +:+ human_readable max_size
                 +:+ " limit.")),
       (after, output ++ concat (before ++ [chunk]))).
Proof.
  intros Hmax Hover.
  destruct (validate_file_size_from_overflow input 0 output max_size)
    as (before & chunk & after & Hsplit & Hb & Hc & Hrun); [lia | lia |].
  exists before, chunk, after. unfold validate_file_size.
  repeat split; [exact Hsplit | lia | lia | exact Hrun].
Qed.

(** C3.  A source whose total length is at most the limit is copied
    whole and [validate_file_size] returns that total length; an empty
    source returns 0, whatever the limit. *)
Theorem validate_file_size_within_limit :
  (forall input output max_size,
     total_length input <= max_size ->
     validate_file_size input output max_size =
       (Return (total_length input), ([], output ++ concat input))) /\
  (forall output max_size,
     validate_file_size [] output max_size = (Return 0, ([], output))).
Proof.
  split.
  - intros input output max_size Hfit. unfold validate_file_size.
    rewrite validate_file_size_from_fits by lia. reflexivity.
  - reflexivity.
Qed.

End size_guard.

(** C1 on a limit of 5 bytes: the second of three chunks overflows. *)
Lemma validate_file_size_over_limit_witness :
  let E := Sample.env 5 true in
  let input := [Sample.bytes_of "abc"; Sample.bytes_of "defgh"; Sample.bytes_of "ij"] in
  0 <= 5 /\ total_length input > 5 /\
  exists before chunk after,
    input = before ++ chunk :: after /\
    total_length before <= 5 /\
    5 < total_length (before ++ [chunk]) /\
    validate_file_size input [] 5 =
      (Raise (HTTPException 413
                ("File upload exceeds the " +:+ human_readable 5 +:+ " limit.")),
       (after, [] ++ concat (before ++ [chunk]))).
Proof.
  intros E input.
  split; [lia|]. split; [reflexivity|].
  apply (validate_file_size_over_limit (H:=E) input [] 5); [lia | reflexivity].
Defined.

(** C3 on a limit of 10 bytes and a source of 10 bytes. *)
Lemma validate_file_size_within_limit_witness :
  let E := Sample.env 10 true in
  let input := [Sample.bytes_of "abc"; Sample.bytes_of "defgh"; Sample.bytes_of "ij"] in
  total_length input <= 10 /\
  validate_file_size input [] 10 = (Return (total_length input), ([], [] ++ concat input)).
Proof.
  intros E input.
  split; [vm_compute; discriminate|].
  apply (proj1 (validate_file_size_within_limit (H:=E)) input [] 10).
  vm_compute; discriminate.
Defined.

End SizeGuardFacts.

(** ** The format validator *)

Module FormatFacts.

Import Datasets.

(** C9.  The required fields of the experiment format, the only
    registered one, are among its allowed fields.  The two sets are
    constants of the module: no operation takes them as state. *)
Theorem required_fields_allowed :
  REQUIRED_EXPERIMENT_FIELDS ⊆ ALLOWED_EXPERIMENT_FIELDS.
Proof. unfold REQUIRED_EXPERIMENT_FIELDS, ALLOWED_EXPERIMENT_FIELDS. set_solver. Qed.

(** Set facts behind the two checks. *)

Lemma required_missing (fields : gset string) :
  "examples" ∉ fields -> REQUIRED_EXPERIMENT_FIELDS ∖ fields = {["examples"]}.
Proof.
  intros Hmiss. unfold REQUIRED_EXPERIMENT_FIELDS.
  apply set_eq. intros x. rewrite elem_of_difference, elem_of_singleton.
  split; [intros [Hx _]; exact Hx | intros ->; split; [reflexivity | exact Hmiss]].
Qed.

Lemma required_present (fields : gset string) :
  "examples" ∈ fields -> REQUIRED_EXPERIMENT_FIELDS ∖ fields = ∅.
Proof.
  intros Hin. unfold REQUIRED_EXPERIMENT_FIELDS.
  apply set_eq. intros x. rewrite elem_of_difference, elem_of_singleton.
  split; [intros [-> Hout]; destruct (Hout Hin) | intros Hx; destruct (not_elem_of_empty x Hx)].
Qed.

Lemma allowed_no_extra : ALLOWED_EXPERIMENT_FIELDS ∖ ALLOWED_EXPERIMENT_FIELDS = ∅.
Proof. set_solver. Qed.

Lemma extra_of_examples_extra :
  ({["examples"; "extra"]} : gset string) ∖ ALLOWED_EXPERIMENT_FIELDS = {["extra"]}.
Proof. unfold ALLOWED_EXPERIMENT_FIELDS. set_solver. Qed.

Lemma singleton_nonempty (x : string) : ({[x]} : gset string) ≠ ∅.
Proof. set_solver. Qed.

Section format.

Context `{Env}.

Lemma check_missing fieldnames :
  "examples" ∉ field_set fieldnames ->
  check_experiment_fields fieldnames =
    Raise (HTTPException 403
             ("Experiment dataset is missing the required fields: "
              +:+ set_str {["examples"]} +:+ ".")).
Proof.
  intros Hmiss. unfold check_experiment_fields.
  rewrite (required_missing _ Hmiss).
  rewrite bool_decide_eq_true_2 by apply singleton_nonempty. reflexivity.
Qed.

Lemma check_present fieldnames :
  "examples" ∈ field_set fieldnames ->
  check_experiment_fields fieldnames =
    let extra_fields := field_set fieldnames ∖ ALLOWED_EXPERIMENT_FIELDS in
    if bool_decide (extra_fields ≠ ∅) then
      Raise (HTTPException 403
               ("Experiment dataset contains the invalid fields: "
                +:+ set_str extra_fields +:+ ". "
                +:+ "Only " +:+ set_str ALLOWED_EXPERIMENT_FIELDS
                +:+ " are allowed."))
    else Return tt.
Proof.
  intros Hin. unfold check_experiment_fields.
  rewrite (required_present _ Hin).
  rewrite bool_decide_eq_false_2 by (intros Hne; apply Hne; reflexivity).
  reflexivity.
Qed.

(** Reading an existing file: the outcome of the header read decides. *)
Lemma validate_experiment_dataset_run filename content (w : World) :
  files w !! filename = Some content ->
  validate_experiment_dataset filename w =
    match DictReader_fieldnames content with
    | Return fieldnames => (check_experiment_fields fieldnames, w)
    | Raise e => (Raise e, w)
    end.
Proof.
  intros Hfile. unfold validate_experiment_dataset, mbind, M_bind, open, lift.
  rewrite Hfile. destruct (DictReader_fieldnames content); reflexivity.
Qed.

(** The two checks raise HTTP exceptions only. *)
Lemma check_never_unicode fieldnames e :
  check_experiment_fields fieldnames = Raise e -> isinstance_UnicodeError e = false.
Proof.
  unfold check_experiment_fields.
  repeat case_bool_decide; intros [= <-]; reflexivity.
Qed.

Lemma validate_dataset_format_experiment filename content (w : World) :
  files w !! filename = Some content ->
  validate_dataset_format filename EXPERIMENT w =
    match DictReader_fieldnames content with
    | Return fieldnames => (check_experiment_fields fieldnames, w)
    | Raise e =>
        if isinstance_UnicodeError e
        then (Raise (HTTPException 422 "Dataset is not a valid CSV file."), w)
        else (Raise e, w)
    end.
Proof.
  intros Hfile. unfold validate_dataset_format, try_except. simpl.
  rewrite (validate_experiment_dataset_run _ _ _ Hfile).
  destruct (DictReader_fieldnames content) as [fieldnames|e]; [|reflexivity].
  destruct (check_experiment_fields fieldnames) as [[]|e] eqn:Hcheck; [reflexivity|].
  rewrite (check_never_unicode _ _ Hcheck). reflexivity.
Qed.

(** C4.  On a file whose header row has the field set
    {examples, ground_truth} the experiment format validates; with the
    field set {ground_truth} it raises the 403 exception for missing
    fields, whose detail renders the set {examples}; with the field set
    {examples, extra} it raises the 403 exception for invalid fields,
    whose detail renders the set {extra} and the allowed set. *)
Theorem validate_format_experiment_headers filename content header (w : World) :
  files w !! filename = Some content ->
  DictReader_fieldnames content = Return (Some header) ->
  (list_to_set header = ({["examples"; "ground_truth"]} : gset string) ->
   validate_dataset_format filename EXPERIMENT w = (Return tt, w)) /\
  (list_to_set header = ({["ground_truth"]} : gset string) ->
   validate_dataset_format filename EXPERIMENT w =
     (Raise (HTTPException 403
               ("Experiment dataset is missing the required fields: "
                +:+ set_str {["examples"]} +:+ ".")), w)) /\
  (list_to_set header = ({["examples"; "extra"]} : gset string) ->
   validate_dataset_format filename EXPERIMENT w =
     (Raise (HTTPException 403
               ("Experiment dataset contains the invalid fields: "
                +:+ set_str {["extra"]} +:+ ". "
                +:+ "Only " +:+ set_str {["examples"; "ground_truth"]}
                +:+ " are allowed.")), w)).
Proof.
  intros Hfile Hread.
  rewrite (validate_dataset_format_experiment _ _ _ Hfile), Hread.
  assert (field_set (Some header) = list_to_set header) as Hfs by reflexivity.
  split; [|split]; intros Hset; rewrite Hset in Hfs.
  - rewrite check_present by (rewrite Hfs; apply elem_of_union_l, elem_of_singleton_2; reflexivity).
    simpl. rewrite Hfs. fold ALLOWED_EXPERIMENT_FIELDS. rewrite allowed_no_extra.
    rewrite bool_decide_eq_false_2 by (intros Hne; apply Hne; reflexivity).
    reflexivity.
  - rewrite check_missing; [reflexivity|].
    rewrite Hfs. intros Hin%elem_of_singleton_1. discriminate Hin.
  - rewrite check_present by (rewrite Hfs; apply elem_of_union_l, elem_of_singleton_2; reflexivity).
    simpl. rewrite Hfs, extra_of_examples_extra.
    rewrite bool_decide_eq_true_2 by apply singleton_nonempty. reflexivity.
Qed.

(** C10.  A file without a header row ([reader.fieldnames] is [None])
    has the empty field set and is refused with the 403 exception for
    missing fields, whose detail renders {examples}.  The same exception
    is raised for every header row that lacks "examples", whatever
    other fields it has: the missing-fields check comes first. *)
Theorem validate_experiment_no_header_and_order filename content (w : World) :
  files w !! filename = Some content ->
  (DictReader_fieldnames content = Return None ->
   field_set None = ∅ /\
   validate_experiment_dataset filename w =
     (Raise (HTTPException 403
               ("Experiment dataset is missing the required fields: "
                +:+ set_str {["examples"]} +:+ ".")), w)) /\
  (forall header,
     DictReader_fieldnames content = Return (Some header) ->
     "examples" ∉ header ->
     validate_experiment_dataset filename w =
       (Raise (HTTPException 403
                 ("Experiment dataset is missing the required fields: "
                  +:+ set_str {["examples"]} +:+ ".")), w)).
Proof.
  intros Hfile. rewrite (validate_experiment_dataset_run _ _ _ Hfile).
  split.
  - intros ->. split; [reflexivity|].
    rewrite check_missing; [reflexivity|]. apply not_elem_of_empty.
  - intros header -> Hmiss.
    rewrite check_missing; [reflexivity|].
    unfold field_set. simpl. rewrite elem_of_list_to_set. exact Hmiss.
Qed.

(** C6, amended.  When reading the header row of the file raises a
    [UnicodeError] (the bytes decoded to read that row are not text in
    the expected encoding), [validate_dataset_format] raises the 422
    exception "Dataset is not a valid CSV file.", whose status differs
    from the 403 of the two field checks.  And no call of
    [validate_dataset_format], on any file name and format, raises an
    exception of class [UnicodeError].  Bytes after the part read for
    the header row are not decoded, so the check does not see them. *)
Theorem validate_format_undecodable :
  (forall filename content (w : World) e,
     files w !! filename = Some content ->
     DictReader_fieldnames content = Raise e ->
     isinstance_UnicodeError e = true ->
     validate_dataset_format filename EXPERIMENT w =
       (Raise (HTTPException HTTP_422_UNPROCESSABLE_ENTITY
                 "Dataset is not a valid CSV file."), w) /\
     HTTP_422_UNPROCESSABLE_ENTITY <> HTTP_403_FORBIDDEN) /\
  (forall filename format (w : World) e,
     (validate_dataset_format filename format w).1 = Raise e ->
     isinstance_UnicodeError e = false).
Proof.
  split.
  - intros filename content w e Hfile Hread Huni.
    rewrite (validate_dataset_format_experiment _ _ _ Hfile), Hread, Huni.
    split; [reflexivity | discriminate].
  - intros filename format w e. unfold validate_dataset_format, try_except.
    destruct (_ w) as [[a|e0] w']; simpl; [discriminate|].
    destruct (isinstance_UnicodeError e0) eqn:Huni; simpl.
    + intros [= <-]. reflexivity.
    + intros [= <-]. exact Huni.
Qed.

(** C8.  For a format tag other than "experiment",
    [validate_dataset_format] raises the [ValueError] of the unreachable
    branch, with the state untouched: a plain Python exception, not one
    of the HTTP exceptions of the validation failures. *)
Theorem validate_format_unknown_tag filename format (w : World) :
  format <> EXPERIMENT ->
  validate_dataset_format filename format w =
    (Raise (ValueError ("Unknown dataset format: " +:+ format)), w) /\
  isinstance_HTTPException (ValueError ("Unknown dataset format: " +:+ format)) = false.
Proof.
  intros Hother. split; [|reflexivity].
  unfold validate_dataset_format, try_except.
  apply String.eqb_neq in Hother. rewrite Hother. reflexivity.
Qed.

End format.

(** C4 on three files read with the sample header reader. *)
Lemma validate_format_experiment_headers_witness :
  let E := Sample.env 100 true in
  let w (content : bytes) := Sample.one_file "upload.csv" content ∅ in
  validate_dataset_format "upload.csv" EXPERIMENT (w Sample.good_csv)
    = (Return tt, w Sample.good_csv) /\
  validate_dataset_format "upload.csv" EXPERIMENT (w Sample.no_examples_csv)
    = (Raise (HTTPException 403
                "Experiment dataset is missing the required fields: {examples}."),
       w Sample.no_examples_csv) /\
  validate_dataset_format "upload.csv" EXPERIMENT (w Sample.extra_csv)
    = (Raise (HTTPException 403
                ("Experiment dataset contains the invalid fields: {extra}. "
                 +:+ "Only {ground_truth, examples} are allowed.")),
       w Sample.extra_csv).
Proof.
  intros E w.
  split; [|split].
  - apply (proj1 (validate_format_experiment_headers (H:=E)
             "upload.csv" Sample.good_csv ["examples"; "ground_truth"]
             (w Sample.good_csv) eq_refl eq_refl)).
    vm_compute. reflexivity.
  - apply (proj1 (proj2 (validate_format_experiment_headers (H:=E)
             "upload.csv" Sample.no_examples_csv ["ground_truth"]
             (w Sample.no_examples_csv) eq_refl eq_refl))).
    vm_compute. reflexivity.
  - apply (proj2 (proj2 (validate_format_experiment_headers (H:=E)
             "upload.csv" Sample.extra_csv ["examples"; "extra"]
             (w Sample.extra_csv) eq_refl eq_refl))).
    vm_compute. reflexivity.
Defined.

(** C10 on an empty file and on a header row that lacks "examples" and
    has a field that is not allowed. *)
Lemma validate_experiment_no_header_and_order_witness :
  let E := Sample.env 100 true in
  let w (content : bytes) := Sample.one_file "upload.csv" content ∅ in
  (DictReader_fieldnames [] = Return None /\
   validate_experiment_dataset "upload.csv" (w [])
     = (Raise (HTTPException 403
                 "Experiment dataset is missing the required fields: {examples}."),
        w [])) /\
  (DictReader_fieldnames Sample.no_examples_extra_csv
     = Return (Some ["ground_truth"; "extra"]) /\
   ("examples" ∉ ["ground_truth"; "extra"]) /\
   validate_experiment_dataset "upload.csv" (w Sample.no_examples_extra_csv)
     = (Raise (HTTPException 403
                 "Experiment dataset is missing the required fields: {examples}."),
        w Sample.no_examples_extra_csv)).
Proof.
  intros E w.
  assert ("examples" ∉ ["ground_truth"; "extra"]) as Hmiss.
  { intros Hin. apply elem_of_cons in Hin as [Hin|Hin]; [discriminate Hin|].
    apply elem_of_cons in Hin as [Hin|Hin]; [discriminate Hin|].
    apply elem_of_nil in Hin. exact Hin. }
  split.
  - split; [reflexivity|].
    apply (proj1 (validate_experiment_no_header_and_order (H:=E)
             "upload.csv" [] (w []) eq_refl)).
    reflexivity.
  - split; [reflexivity|]. split; [exact Hmiss|].
    apply (proj2 (validate_experiment_no_header_and_order (H:=E)
             "upload.csv" Sample.no_examples_extra_csv
             (w Sample.no_examples_extra_csv) eq_refl)
             ["ground_truth"; "extra"] eq_refl Hmiss).
Defined.

(** C6 on a file of bytes that are not text. *)
Lemma validate_format_undecodable_witness :
  let E := Sample.env 100 true in
  let w := Sample.one_file "upload.bin" Sample.binary_blob ∅ in
  let e := UnicodeDecodeError "'utf-8' codec can't decode byte" in
  (DictReader_fieldnames Sample.binary_blob = Raise e /\
   isinstance_UnicodeError e = true /\
   validate_dataset_format "upload.bin" EXPERIMENT w
     = (Raise (HTTPException 422 "Dataset is not a valid CSV file."), w)) /\
  isinstance_UnicodeError (HTTPException 422 "Dataset is not a valid CSV file.") = false.
Proof.
  intros E w e.
  split.
  - split; [reflexivity|]. split; [reflexivity|].
    apply (proj1 (validate_format_undecodable (H:=E)) "upload.bin" Sample.binary_blob
             w e eq_refl eq_refl eq_refl).
  - apply (proj2 (validate_format_undecodable (H:=E)) "upload.bin" EXPERIMENT w).
    reflexivity.
Defined.

(** C6 as it is worded does not hold: a buffer can fail to decode as
    text and still pass.  The file below has a well-formed header row,
    10000 bytes of text and then the byte 0xff.  Read block by block as
    a text file is, only its first block is decoded for the header row,
    and [validate_dataset_format] returns; with the byte 0xff at the
    start of the file the 422 exception is raised. *)
Lemma validate_format_undecodable_counterexample :
  let E := SampleText.env_lazy 100000 true in
  let w := Sample.one_file "upload.csv" SampleText.late_bad_byte ∅ in
  let w' := Sample.one_file "upload.csv" SampleText.early_bad_byte ∅ in
  SampleText.decodable SampleText.late_bad_byte = false /\
  validate_dataset_format "upload.csv" EXPERIMENT w = (Return tt, w) /\
  SampleText.decodable SampleText.early_bad_byte = false /\
  validate_dataset_format "upload.csv" EXPERIMENT w'
    = (Raise (HTTPException 422 "Dataset is not a valid CSV file."), w').
Proof.
  intros E w w'.
  split; [vm_compute; reflexivity|].
  split; [|split; [vm_compute; reflexivity|]].
  - rewrite (validate_dataset_format_experiment (H:=E) "upload.csv"
               SampleText.late_bad_byte w eq_refl).
    assert (DictReader_fieldnames SampleText.late_bad_byte
            = Return (Some ["examples"; "ground_truth"])) as ->
      by (vm_compute; reflexivity).
    assert (check_experiment_fields (Some ["examples"; "ground_truth"]) = Return tt) as ->
      by (vm_compute; reflexivity).
    reflexivity.
  - rewrite (validate_dataset_format_experiment (H:=E) "upload.csv"
               SampleText.early_bad_byte w' eq_refl).
    assert (DictReader_fieldnames SampleText.early_bad_byte
            = Raise (UnicodeDecodeError "'utf-8' codec can't decode byte")) as ->
      by (vm_compute; reflexivity).
    reflexivity.
Qed.

(** C8 on the tag "inference". *)
Lemma validate_format_unknown_tag_witness :
  let E := Sample.env 100 true in
  let w := Sample.one_file "upload.csv" Sample.good_csv ∅ in
  "inference" <> EXPERIMENT /\
  validate_dataset_format "upload.csv" "inference" w
    = (Raise (ValueError "Unknown dataset format: inference"), w).
Proof.
  intros E w.
  assert ("inference" <> EXPERIMENT) as Hother by discriminate.
  split; [exact Hother|].
  apply (proj1 (validate_format_unknown_tag (H:=E) "upload.csv" "inference" w Hother)).
Defined.

End FormatFacts.

(** ** The upload flow *)

Module FlowFacts.

Import Datasets.

Section flow.

Context `{Env}.

Lemma fresh_file_absent (w : World) : files w !! fresh (dom (files w)) = None.
Proof. apply not_elem_of_dom, is_fresh. Qed.

Lemma fresh_record_absent (w : World) : records w !! fresh (dom (records w)) = None.
Proof. apply not_elem_of_dom, is_fresh. Qed.

(** The size guard run on the temporary file changes that file only. *)
Lemma with_buffer_state temp input max_size (w : World) :
  exists output,
    (with_buffer temp input max_size w).2 = set_files (insert temp output) w.
Proof.
  unfold with_buffer.
  destruct (validate_file_size _ _ _) as [res [rest output]].
  exists output. reflexivity.
Qed.

(** The format validator reads; it leaves the state as it is. *)
Lemma validate_dataset_format_state filename format (w : World) :
  (validate_dataset_format filename format w).2 = w.
Proof.
  unfold validate_dataset_format, try_except, validate_experiment_dataset,
    mbind, M_bind, open, lift, raise.
  destruct (String.eqb format EXPERIMENT).
  - destruct (files w !! filename) as [content|]; simpl; [|reflexivity].
    destruct (DictReader_fieldnames content) as [fieldnames|e]; simpl.
    + destruct (check_experiment_fields fieldnames) as [[]|e]; simpl; [reflexivity|].
      destruct (isinstance_UnicodeError e); reflexivity.
    + destruct (isinstance_UnicodeError e); reflexivity.
  - reflexivity.
Qed.

(** [_save_dataset_to_s3] on a record, by the outcome of the two
    library calls. *)
Lemma save_dataset_to_s3_run temp record (w : World) :
  _save_dataset_to_s3 temp (Some record) w =
    match load_dataset temp (files w) with
    | Raise e =>
        (Raise (HTTPException 500 (exc_str e)),
         set_records (delete (id record)) w)
    | Return dataset_hf =>
        let dataset_path :=
          "s3://" +:+ PosixPath.joinpath S3_BUCKET (_get_s3_key (id record) (filename record)) in
        match save_to_disk dataset_hf dataset_path (s3 w) with
        | (Return _, store) =>
            (Return tt, {| files := files w; records := records w; s3 := store |})
        | (Raise e, store) =>
            (Raise (HTTPException 500 (exc_str e)),
             {| files := files w; records := delete (id record) (records w);
                s3 := store |})
        end
    end.
Proof.
  unfold _save_dataset_to_s3, try_except, mbind, M_bind, call_load_dataset,
    call_save_to_disk, attributes, mret, M_ret.
  destruct (load_dataset temp (files w)) as [dataset_hf|e]; simpl; [|reflexivity].
  destruct (save_to_disk _ _ _) as [[[]|e] store]; reflexivity.
Qed.

(** The [try] block of [upload_dataset], run once the temporary file
    [temp] exists: the file is still there afterwards, and the record
    store holds a new record exactly when the block returns it. *)
Lemma upload_try_block temp dataset format (w : World) :
  let block : M World DatasetRecord :=
    actual_size ← with_buffer temp (file dataset) MAX_DATASET_SIZE;
    validate_dataset_format temp format;;
    record ← repo_create (upload_filename dataset) format actual_size;
    _save_dataset_to_s3 temp (Some record);;
    mret record in
  exists output,
    files (block w).2 = <[temp := output]> (files w) /\
    match (block w).1 with
    | Return record =>
        records w !! id record = None /\
        records (block w).2 = <[id record := record]> (records w)
    | Raise _ => records (block w).2 = records w
    end.
Proof.
  intros block. unfold block, mbind, M_bind.
  destruct (with_buffer_state temp (file dataset) MAX_DATASET_SIZE w) as [output Hbuf].
  exists output.
  destruct (with_buffer _ _ _ w) as [[actual_size|e] w1]; simpl in Hbuf; subst w1;
    [|split; reflexivity].
  pose proof (validate_dataset_format_state temp format
                (set_files (insert temp output) w)) as Hfmt.
  destruct (validate_dataset_format _ _ _) as [[[]|e] w2]; simpl in Hfmt; subst w2;
    [|split; reflexivity].
  unfold repo_create. cbv beta zeta. simpl id.
  rewrite save_dataset_to_s3_run. simpl files. simpl records. simpl s3.
  set (record_id := fresh (dom (records w))).
  assert (records w !! record_id = None) as Hfresh by apply fresh_record_absent.
  destruct (load_dataset temp _) as [dataset_hf|e]; simpl.
  - destruct (save_to_disk _ _ _) as [[[]|e] store]; simpl.
    + split; [reflexivity|]. split; [exact Hfresh | reflexivity].
    + split; [reflexivity|]. apply delete_insert_id, Hfresh.
  - split; [reflexivity|]. apply delete_insert_id, Hfresh.
Qed.

(** What a call of [upload_dataset] leaves behind. *)
Lemma upload_dataset_effect dataset format (w : World) :
  files (upload_dataset dataset format w).2 = files w /\
  match (upload_dataset dataset format w).1 with
  | Return response =>
      exists record,
        response = model_validate record /\
        records w !! id record = None /\
        records (upload_dataset dataset format w).2
          = <[id record := record]> (records w)
  | Raise _ => records (upload_dataset dataset format w).2 = records w
  end.
Proof.
  destruct (upload_dataset dataset format w) as [res w'] eqn:Hrun. simpl.
  unfold upload_dataset, NamedTemporaryFile, try_finally in Hrun.
  set (temp := fresh (dom (files w))) in *.
  assert (files w !! temp = None) as Hfresh by apply fresh_file_absent.
  destruct (upload_try_block temp dataset format (set_files (insert temp []) w))
    as (output & Hfiles & Hrecords).
  cbv zeta in Hfiles, Hrecords.
  unfold mbind, M_bind in Hrun, Hfiles, Hrecords. fold temp in Hrun.
  match type of Hfiles with files (snd ?block) = _ => destruct block as [r w2] end.
  simpl in Hfiles, Hrecords. rewrite insert_insert_eq in Hfiles.
  unfold unlink in Hrun. rewrite Hfiles, lookup_insert_eq in Hrun.
  assert (files (set_files (delete temp) w2) = files w) as Hgone
    by (simpl; rewrite Hfiles; apply delete_insert_id, Hfresh).
  destruct r as [record|e]; injection Hrun as <- <-.
  - split; [exact Hgone|].
    exists record. split; [reflexivity|]. exact Hrecords.
  - split; [exact Hgone|]. exact Hrecords.
Qed.

(** C7.  (1) Whatever happens in [upload_dataset], the local files are
    afterwards as they were before the call: the temporary file, whose
    name [NamedTemporaryFile] took outside the names in use, is gone.
    (2) Whenever [upload_dataset] raises, the record store is as it was
    before the call: no record is left behind.  (3) When the storage
    write of [_save_dataset_to_s3] fails, at loading the file or at
    saving it to the object store, the record it was called with is
    deleted from the record store and the 500 exception made from the
    cause is raised. *)
Theorem upload_dataset_cleanup :
  (forall dataset format (w : World),
     files (upload_dataset dataset format w).2 = files w /\
     files (upload_dataset dataset format w).2 !! fresh (dom (files w)) = None) /\
  (forall dataset format (w : World) e,
     (upload_dataset dataset format w).1 = Raise e ->
     records (upload_dataset dataset format w).2 = records w) /\
  (forall temp record (w : World) cause,
     (load_dataset temp (files w) = Raise cause \/
      exists dataset_hf,
        load_dataset temp (files w) = Return dataset_hf /\
        (save_to_disk dataset_hf
           ("s3://" +:+ PosixPath.joinpath S3_BUCKET (_get_s3_key (id record) (filename record)))
           (s3 w)).1 = Raise cause) ->
     (_save_dataset_to_s3 temp (Some record) w).1
       = Raise (HTTPException HTTP_500_INTERNAL_SERVER_ERROR (exc_str cause)) /\
     records (_save_dataset_to_s3 temp (Some record) w).2
       = delete (id record) (records w)).
Proof.
  split; [|split].
  - intros dataset format w.
    destruct (upload_dataset_effect dataset format w) as [Hfiles _].
    split; [exact Hfiles|]. rewrite Hfiles. apply fresh_file_absent.
  - intros dataset format w e Hraise.
    destruct (upload_dataset_effect dataset format w) as [_ Hrecords].
    rewrite Hraise in Hrecords. exact Hrecords.
  - intros temp record w cause Hfail.
    rewrite save_dataset_to_s3_run.
    destruct Hfail as [Hload | (dataset_hf & Hload & Hsave)]; rewrite Hload.
    + split; reflexivity.
    + cbv zeta. destruct (save_to_disk _ _ _) as [res store].
      simpl in Hsave. subst res. split; reflexivity.
Qed.

End flow.

(** C7 with an object store that refuses writes: the upload of a
    well-formed dataset raises, and leaves no file and no record. *)
Lemma upload_dataset_cleanup_witness :
  let E := Sample.env 100 false in
  let dataset := {| file := [Sample.good_csv]; upload_filename := "data.csv" |} in
  let w := Sample.empty_world ∅ in
  let record := {| id := "0"; filename := "data.csv"; format := EXPERIMENT; size := 34 |} in
  let w1 : World := {| files := {[ "0" := Sample.good_csv ]};
                       records := {[ "0" := record ]}; s3 := ∅ |} in
  let e := HTTPException 500 "connection refused" in
  ((upload_dataset dataset EXPERIMENT w).1 = Raise e /\
   records (upload_dataset dataset EXPERIMENT w).2 = records w) /\
  ((_save_dataset_to_s3 "0" (Some record) w1).1 = Raise e /\
   records (_save_dataset_to_s3 "0" (Some record) w1).2 = delete "0" (records w1)).
Proof.
  intros E dataset w record w1 e.
  assert ((upload_dataset dataset EXPERIMENT w).1 = Raise e) as Hraise
    by (vm_compute; reflexivity).
  split.
  - split; [exact Hraise|].
    exact (proj1 (proj2 (upload_dataset_cleanup (H:=E))) dataset EXPERIMENT w e Hraise).
  - apply (proj2 (proj2 (upload_dataset_cleanup (H:=E))) "0" record w1
             (LibraryError "ClientError" "connection refused")).
    right. exists Sample.good_csv. split; reflexivity.
Defined.

End FlowFacts.

(** ** The job poller *)

Module JobsFacts.

Import Jobs.

Lemma observations_app h k :
  observations (h ++ k) = (observations h + observations k)%nat.
Proof. unfold observations. rewrite List.filter_app, length_app. reflexivity. Qed.

Lemma sleeps_app h k : sleeps (h ++ k) = (sleeps h + sleeps k)%nat.
Proof. unfold sleeps. rewrite List.filter_app, length_app. reflexivity. Qed.

Lemma observations_snoc_request h job j :
  observations (h ++ [Request job j]) = S (observations h).
Proof. rewrite observations_app. unfold observations. simpl. lia. Qed.

Lemma observations_snoc_sleep h seconds :
  observations (h ++ [Sleep seconds]) = observations h.
Proof. rewrite observations_app. unfold observations. simpl. lia. Qed.

Lemma non_terminal_waits s :
  non_terminal s -> String.eqb s "PENDING" || String.eqb s "RUNNING" = true.
Proof. intros [-> | ->]; reflexivity. Qed.

Lemma non_terminal_not_terminal s : non_terminal s -> ~ terminal s.
Proof. intros [-> | ->] [Hs | [Hs | Hs]]; discriminate Hs. Qed.

Section poller.

Variable client : ApiClient.
Variable id : string.
Variable poll_wait : Z.

(** While the statuses observed are non-terminal, every round of the
    loop is one observation followed by one suspension. *)
Lemma poll_non_terminal (m : nat) : forall (n : nat) (h : list Event),
  (forall h', (observations h' < observations h + n)%nat ->
              non_terminal (status (client id h'))) ->
  exists new,
    poll client id poll_wait (n + m) h = poll client id poll_wait m (h ++ new) /\
    observations new = n /\ sleeps new = n.
Proof.
  induction n as [|n IH]; intros h Hwait.
  - exists []. rewrite app_nil_r. repeat split; reflexivity.
  - simpl poll.
    rewrite non_terminal_waits by (apply Hwait; lia).
    set (h2 := (h ++ [Request id (client id h)]) ++ [Sleep poll_wait]).
    assert (observations h2 = S (observations h)) as Hobs
      by (unfold h2; rewrite observations_snoc_sleep, observations_snoc_request;
          reflexivity).
    destruct (IH h2) as (new & Hpoll & Hn & Hs).
    { intros h' Hlt. apply Hwait. lia. }
    exists ([Request id (client id h); Sleep poll_wait] ++ new).
    rewrite Hpoll. unfold h2. rewrite <- !app_assoc. simpl.
    split; [reflexivity|].
    change (Request id (client id h) :: Sleep poll_wait :: new)
      with ([Request id (client id h); Sleep poll_wait] ++ new).
    rewrite observations_app, sleeps_app, Hn, Hs. split; reflexivity.
Qed.

Lemma decided_failed j :
  status j = "FAILED" -> decided id j (Raise (Exception ("Job " +:+ id +:+ " failed"))).
Proof.
  intros Hs. unfold decided. rewrite Hs.
  repeat split; intros Hs'; try discriminate Hs'; reflexivity.
Qed.

Lemma decided_stopped j :
  status j = "STOPPED" -> decided id j (Raise (Exception ("Job " +:+ id +:+ " stopped"))).
Proof.
  intros Hs. unfold decided. rewrite Hs.
  repeat split; intros Hs'; try discriminate Hs'; reflexivity.
Qed.

Lemma decided_succeeded j : status j = "SUCCEEDED" -> decided id j (Return j).
Proof.
  intros Hs. unfold decided. rewrite Hs.
  repeat split; intros Hs'; try discriminate Hs'; reflexivity.
Qed.

(** The events of a run of the loop: either it runs to its end and has
    observed no terminal status, or it ends at the first observation of
    a terminal status, which decides the outcome and is the last event. *)
Lemma poll_trace : forall (rounds : nat) (h : list Event),
  exists new,
    (poll client id poll_wait rounds h).2 = h ++ new /\
    match (poll client id poll_wait rounds h).1 with
    | None => Forall not_final new
    | Some outcome =>
        exists quiet j,
          new = quiet ++ [Request id j] /\ Forall not_final quiet /\
          terminal (status j) /\ decided id j outcome
    end.
Proof.
  induction rounds as [|rounds IH]; intros h.
  - exists []. simpl. rewrite app_nil_r. split; [reflexivity | constructor].
  - simpl poll. set (j := client id h).
    destruct (String.eqb (status j) "PENDING" || String.eqb (status j) "RUNNING")
      eqn:Hwait.
    { assert (non_terminal (status j)) as Hnt.
      { apply orb_true_iff in Hwait as [Hs|Hs]; apply String.eqb_eq in Hs;
          [left | right]; exact Hs. }
      destruct (IH ((h ++ [Request id j]) ++ [Sleep poll_wait])) as (new & Hh & Hout).
      destruct (poll client id poll_wait rounds _) as [decision h'].
      simpl in Hh, Hout. subst h'.
      exists ([Request id j; Sleep poll_wait] ++ new).
      simpl. rewrite <- !app_assoc. split; [reflexivity|].
      assert (Forall not_final [Request id j; Sleep poll_wait]) as Hq.
      { repeat constructor. simpl. apply non_terminal_not_terminal, Hnt. }
      destruct decision as [outcome|].
      - destruct Hout as (quiet & j' & -> & Hquiet & Hterm & Hdec).
        exists ([Request id j; Sleep poll_wait] ++ quiet), j'.
        repeat split; try assumption; try apply Hdec.
        apply Forall_app; split; assumption.
      - apply (Forall_app _ [_; _]); split; assumption. }
    destruct (String.eqb_spec (status j) "FAILED") as [Hf|Hf].
    { exists [Request id j]. simpl. split; [reflexivity|].
      exists [], j. split; [reflexivity|]. split; [constructor|].
      split; [left; exact Hf | apply decided_failed, Hf]. }
    destruct (String.eqb_spec (status j) "STOPPED") as [Hs|Hs].
    { exists [Request id j]. simpl. split; [reflexivity|].
      exists [], j. split; [reflexivity|]. split; [constructor|].
      split; [right; left; exact Hs | apply decided_stopped, Hs]. }
    destruct (String.eqb_spec (status j) "SUCCEEDED") as [Hok|Hok].
    { exists [Request id j]. simpl. split; [reflexivity|].
      exists [], j. split; [reflexivity|]. split; [constructor|].
      split; [right; right; exact Hok | apply decided_succeeded, Hok]. }
    destruct (IH (h ++ [Request id j])) as (new & Hh & Hout).
    destruct (poll client id poll_wait rounds _) as [decision h'].
    simpl in Hh, Hout. subst h'.
    exists ([Request id j] ++ new).
    simpl. rewrite <- !app_assoc. split; [reflexivity|].
    assert (not_final (Request id j)) as Hq.
    { simpl. intros [Ht | [Ht | Ht]]; contradiction. }
    destruct decision as [outcome|].
    + destruct Hout as (quiet & j' & -> & Hquiet & Hterm & Hdec).
      exists ([Request id j] ++ quiet), j'.
      repeat split; try assumption; try apply Hdec.
      constructor; assumption.
    + constructor; assumption.
Qed.

End poller.
Lemma snoc_eq_middle {A} (l : list A) x before y after :
  l ++ [x] = before ++ y :: after -> (after = [] /\ y = x) \/ y ∈ l.
Proof.
  induction after as [|z after _] using rev_ind; intros Heq.
  - left. apply app_inj_tail in Heq as [_ Heq]. split; [reflexivity | congruence].
  - right. rewrite app_comm_cons, app_assoc in Heq.
    apply app_inj_tail in Heq as [-> _].
    apply elem_of_app. right. apply elem_of_cons. left. reflexivity.
Qed.

(** A provider that never reports a terminal status: the loop makes
    [retries - 1] observations, each followed by a suspension, and the
    exception after the loop is raised. *)
Lemma wait_for_job_never_terminal client id retries poll_wait h :
  (forall h', non_terminal (status (client id h'))) ->
  exists new,
    wait_for_job client id retries poll_wait h
      = (Raise (Exception (timeout_message id)), h ++ new) /\
    observations new = Z.to_nat (retries - 1) /\
    sleeps new = Z.to_nat (retries - 1).
Proof.
  intros Hwait. unfold wait_for_job, range_length.
  destruct (poll_non_terminal client id poll_wait 0 (Z.to_nat (retries - 1)) h)
    as (new & Hpoll & Hobs & Hsleeps).
  { intros h' _. apply Hwait. }
  rewrite Nat.add_0_r in Hpoll. rewrite Hpoll. simpl.
  exists new. repeat split; assumption.
Qed.

(** C2, as the code has it.  With a provider that reports PENDING or
    RUNNING on every query and [retries >= 1], [wait_for_job] raises the
    exception that follows the loop after [retries - 1] observations, one
    fewer than the [retries] observations of the claim. *)
Theorem wait_for_job_exhaustion client id retries poll_wait h :
  1 <= retries ->
  (forall h', non_terminal (status (client id h'))) ->
  (wait_for_job client id retries poll_wait h).1
    = Raise (Exception (timeout_message id)) /\
  Z.of_nat (observations (wait_for_job client id retries poll_wait h).2)
    = Z.of_nat (observations h) + (retries - 1).
Proof.
  intros Hretries Hwait.
  destruct (wait_for_job_never_terminal client id retries poll_wait h Hwait)
    as (new & -> & Hobs & _).
  simpl. split; [reflexivity|].
  rewrite observations_app, Hobs. lia.
Qed.

(** C2 at three retries: two observations, not three. *)
Lemma wait_for_job_exhaustion_witness :
  let run := wait_for_job Sample.always_running "job-1" 3 30 [] in
  1 <= 3 /\
  (forall h', non_terminal (status (Sample.always_running "job-1" h'))) /\
  run.1 = Raise (Exception (timeout_message "job-1")) /\
  observations run.2 = 2%nat /\
  observations run.2 <> 3%nat.
Proof.
  intros run.
  assert (1 <= 3) as Hretries by lia.
  assert (forall h', non_terminal (status (Sample.always_running "job-1" h'))) as Hwait
    by (intros h'; right; reflexivity).
  destruct (wait_for_job_exhaustion Sample.always_running "job-1" 3 30 [] Hretries Hwait)
    as [Hraise Hobs].
  fold run in Hraise, Hobs.
  change (observations []) with 0%nat in Hobs.
  split; [exact Hretries|]. split; [exact Hwait|]. split; [exact Hraise|].
  split; lia.
Defined.

(** C5.  (1) In every run of [wait_for_job], an observation of a terminal
    status is the last event of the run, so that neither a suspension nor
    another observation follows it, and it decides the outcome: the
    document is returned on SUCCEEDED, the exception "Job <id> failed" is
    raised on FAILED and "Job <id> stopped" on STOPPED.  (2) When the
    first [n] observations are non-terminal and the next one is terminal,
    and the loop has that many rounds ([n + 1 < retries]), the run makes
    exactly [n + 1] observations and [n] suspensions and ends with the
    terminal observation, which decides the outcome. *)
Theorem wait_for_job_short_circuit :
  (forall client id retries poll_wait h,
     exists new,
       (wait_for_job client id retries poll_wait h).2 = h ++ new /\
       forall before job j after,
         new = before ++ Request job j :: after ->
         terminal (status j) ->
         after = [] /\ decided id j (wait_for_job client id retries poll_wait h).1) /\
  (forall client id retries poll_wait h (n : nat),
     Z.of_nat n + 1 < retries ->
     (forall h', (observations h' < observations h + n)%nat ->
                 non_terminal (status (client id h'))) ->
     (forall h', observations h' = (observations h + n)%nat ->
                 terminal (status (client id h'))) ->
     exists new j,
       (wait_for_job client id retries poll_wait h).2 = h ++ new ++ [Request id j] /\
       observations new = n /\ sleeps new = n /\
       terminal (status j) /\
       decided id j (wait_for_job client id retries poll_wait h).1).
Proof.
  assert (forall client id retries poll_wait h,
     exists new,
       (wait_for_job client id retries poll_wait h).2 = h ++ new /\
       forall before job j after,
         new = before ++ Request job j :: after ->
         terminal (status j) ->
         after = [] /\ decided id j (wait_for_job client id retries poll_wait h).1)
    as Hlast.
  { intros client id retries poll_wait h. unfold wait_for_job.
    destruct (poll_trace client id poll_wait (range_length 1 retries) h)
      as (new & Hh & Hout).
    destruct (poll _ _ _ _ _) as [[outcome|] h']; simpl in Hh, Hout; subst h';
      exists new; (split; [reflexivity|]); intros before job j after Hsplit Hterm.
    - destruct Hout as (quiet & j0 & -> & Hquiet & _ & Hdec).
      apply snoc_eq_middle in Hsplit as [[-> Heq] | Hin].
      + injection Heq as -> ->. split; [reflexivity | exact Hdec].
      + rewrite Forall_forall in Hquiet. destruct (Hquiet _ Hin Hterm).
    - subst new. rewrite Forall_forall in Hout.
      assert (Request job j ∈ before ++ Request job j :: after) as Hin
        by (apply elem_of_app; right; apply elem_of_cons; left; reflexivity).
      destruct (Hout _ Hin Hterm). }
  split; [exact Hlast|].
  intros client id retries poll_wait h n Hrounds Hwait Hend.
  destruct (Hlast client id retries poll_wait h) as (new' & Hh' & Hdec).
  assert (exists m, range_length 1 retries = (n + S m)%nat) as [m Hm]
    by (exists (Z.to_nat (retries - 1) - n - 1)%nat; unfold range_length; lia).
  destruct (poll_non_terminal client id poll_wait (S m) n h Hwait)
    as (new & Hpoll & Hobs & Hsleeps).
  set (j := client id (h ++ new)).
  assert (terminal (status j)) as Hterm
    by (apply Hend; rewrite observations_app, Hobs; reflexivity).
  assert ((wait_for_job client id retries poll_wait h).2
          = (h ++ new) ++ [Request id j]) as Hrun.
  { unfold wait_for_job. rewrite Hm, Hpoll. simpl poll. fold j.
    destruct Hterm as [Hs | [Hs | Hs]]; rewrite Hs; reflexivity. }
  exists new, j. rewrite <- app_assoc in Hrun.
  split; [exact Hrun|]. split; [exact Hobs|]. split; [exact Hsleeps|].
  split; [exact Hterm|].
  rewrite Hrun in Hh'. apply app_inv_head in Hh'.
  destruct (Hdec new id j [] (eq_sym Hh') Hterm) as [_ Hd]. exact Hd.
Qed.

(** C5 on a job that is RUNNING at the first observation and FAILED at
    the second, polled with three retries: two observations, one
    suspension, and the failure raised. *)
Lemma wait_for_job_short_circuit_witness :
  let client := Sample.scripted ["RUNNING"; "FAILED"] in
  let run := wait_for_job client "job-1" 3 30 [] in
  (Z.of_nat 1 + 1 < 3 /\
   (forall h', (observations h' < observations [] + 1)%nat ->
               non_terminal (status (client "job-1" h'))) /\
   (forall h', observations h' = (observations [] + 1)%nat ->
               terminal (status (client "job-1" h'))) /\
   exists new j,
     run.2 = [] ++ new ++ [Request "job-1" j] /\
     observations new = 1%nat /\ sleeps new = 1%nat /\
     terminal (status j) /\ decided "job-1" j run.1) /\
  run.1 = Raise (Exception "Job job-1 failed") /\
  observations run.2 = 2%nat /\ sleeps run.2 = 1%nat.
Proof.
  intros client run.
  assert (Z.of_nat 1 + 1 < 3) as Hrounds by lia.
  assert (forall h', (observations h' < observations [] + 1)%nat ->
                     non_terminal (status (client "job-1" h'))) as Hwait.
  { intros h' Hlt. change (observations []) with 0%nat in Hlt.
    unfold client, Sample.scripted. simpl.
    destruct (observations h') as [|k]; [right; reflexivity | lia]. }
  assert (forall h', observations h' = (observations [] + 1)%nat ->
                     terminal (status (client "job-1" h'))) as Hend.
  { intros h' Heq. unfold client, Sample.scripted. simpl.
    rewrite Heq. left. reflexivity. }
  split; [|repeat split; reflexivity].
  split; [exact Hrounds|]. split; [exact Hwait|]. split; [exact Hend|].
  exact (proj2 wait_for_job_short_circuit client "job-1" 3 30 [] 1%nat
           Hrounds Hwait Hend).
Defined.

End JobsFacts.

(** ** More on the size guard *)

Module SizeGuardMore.

Import Datasets SizeGuardFacts.

Section size_guard.

Context `{Env}.

(** The loop copies what it reads: the chunks split into those consumed
    and those left unread, the destination has grown by the consumed
    ones, and a returned size is the running total over them. *)
Lemma validate_file_size_from_copies input : forall actual_size output max_size,
  exists consumed,
    input = consumed ++ (validate_file_size_from actual_size input output max_size).2.1 /\
    (validate_file_size_from actual_size input output max_size).2.2
      = output ++ concat consumed /\
    forall n, (validate_file_size_from actual_size input output max_size).1 = Return n ->
              n = actual_size + total_length consumed.
Proof.
  induction input as [|chunk input IH]; intros actual_size output max_size.
  - exists []. simpl. rewrite app_nil_r.
    repeat split. intros n [= <-]. rewrite total_length_nil. lia.
  - simpl. destruct (actual_size + len chunk >? max_size).
    + exists [chunk]. simpl. rewrite app_nil_r. repeat split. intros n Hn. discriminate Hn.
    + destruct (IH (actual_size + len chunk) (output ++ chunk) max_size)
        as (consumed & Hsplit & Hout & Hsize).
      exists (chunk :: consumed). simpl.
      split; [f_equal; exact Hsplit|].
      split; [rewrite Hout, <- app_assoc; reflexivity|].
      intros n Hn. rewrite (Hsize n Hn), total_length_cons. lia.
Qed.

(** X1.  Whatever the limit, [validate_file_size] copies what it reads:
    the source is the chunks consumed followed by the chunks left unread,
    the destination is its old content followed by the consumed chunks in
    order, and a size that is returned is the number of bytes consumed. *)
Theorem validate_file_size_copies_what_it_reads input output max_size :
  exists consumed,
    input = consumed ++ (validate_file_size input output max_size).2.1 /\
    (validate_file_size input output max_size).2.2 = output ++ concat consumed /\
    forall n, (validate_file_size input output max_size).1 = Return n ->
              n = total_length consumed.
Proof.
  destruct (validate_file_size_from_copies input 0 output max_size)
    as (consumed & Hsplit & Hout & Hsize).
  exists consumed. unfold validate_file_size.
  split; [exact Hsplit|]. split; [exact Hout|].
  intros n Hn. rewrite (Hsize n Hn). lia.
Qed.

(** A size is returned only for a source within the limit. *)
Lemma validate_file_size_return_inv input output max_size n st :
  0 <= max_size ->
  validate_file_size input output max_size = (Return n, st) ->
  n = total_length input /\ n <= max_size /\ st = ([], output ++ concat input).
Proof.
  intros Hmax Hrun.
  destruct (Z_le_gt_dec (total_length input) max_size) as [Hfit|Hover].
  - unfold validate_file_size in Hrun.
    rewrite validate_file_size_from_fits in Hrun by lia.
    injection Hrun as <- <-. repeat split; lia.
  - destruct (validate_file_size_from_overflow input 0 output max_size)
      as (before & chunk & after & _ & _ & _ & Hraise); [lia | lia |].
    unfold validate_file_size in Hrun. rewrite Hraise in Hrun. discriminate Hrun.
Qed.

(** X2.  With a limit that is not negative, [validate_file_size] returns
    only for a source within the limit: the size returned is the total
    length of the source, it is at most the limit, and the whole source
    has been copied. *)
Theorem validate_file_size_returns_only_within_limit input output max_size n st :
  0 <= max_size ->
  validate_file_size input output max_size = (Return n, st) ->
  n = total_length input /\ n <= max_size /\ st = ([], output ++ concat input).
Proof.
  intros Hmax Hrun.
  destruct (Z_le_gt_dec (total_length input) max_size) as [Hfit|Hover].
  - unfold validate_file_size in Hrun.
    rewrite validate_file_size_from_fits in Hrun by lia.
    injection Hrun as <- <-. repeat split; lia.
  - destruct (validate_file_size_from_overflow input 0 output max_size)
      as (before & chunk & after & _ & _ & _ & Hraise); [lia | lia |].
    unfold validate_file_size in Hrun. rewrite Hraise in Hrun. discriminate Hrun.
Qed.

End size_guard.

(** X1 on a source of 10 bytes and a limit of 10 bytes. *)
Lemma validate_file_size_copies_what_it_reads_witness :
  let E := Sample.env 10 true in
  let input := [Sample.bytes_of "abc"; Sample.bytes_of "defgh"; Sample.bytes_of "ij"] in
  (validate_file_size input [] 10).1 = Return 10 /\
  exists consumed,
    input = consumed ++ (validate_file_size input [] 10).2.1 /\
    (validate_file_size input [] 10).2.2 = [] ++ concat consumed /\
    10 = total_length consumed.
Proof.
  intros E input.
  assert ((validate_file_size input [] 10).1 = Return 10) as Hrun by reflexivity.
  split; [exact Hrun|].
  destruct (validate_file_size_copies_what_it_reads (H:=E) input [] 10)
    as (consumed & Hsplit & Hout & Hsize).
  exists consumed. split; [exact Hsplit|]. split; [exact Hout|]. exact (Hsize 10 Hrun).
Defined.

(** X2 on a source of 10 bytes and a limit of 10 bytes. *)
Lemma validate_file_size_returns_only_within_limit_witness :
  let E := Sample.env 10 true in
  let input := [Sample.bytes_of "abc"; Sample.bytes_of "defgh"; Sample.bytes_of "ij"] in
  0 <= 10 /\
  validate_file_size input [] 10 = (Return 10, ([], concat input)) /\
  10 = total_length input /\ 10 <= 10.
Proof.
  intros E input.
  assert (0 <= 10) as Hmax by lia.
  assert (validate_file_size input [] 10 = (Return 10, ([], concat input))) as Hrun
    by reflexivity.
  destruct (validate_file_size_returns_only_within_limit (H:=E) input [] 10 10
              ([], concat input) Hmax Hrun) as (Hn & Hle & _).
  repeat split; assumption.
Defined.

End SizeGuardMore.

(** ** More on the format validator *)

Module FormatMore.

Import Datasets FormatFacts.

Lemma difference_empty_subseteq (X Y : gset string) : X ∖ Y = ∅ <-> X ⊆ Y.
Proof.
  split.
  - intros Hempty x Hx. destruct (decide (x ∈ Y)) as [Hy|Hy]; [exact Hy|].
    assert (x ∈ X ∖ Y) as Hin by (apply elem_of_difference; split; assumption).
    rewrite Hempty in Hin. destruct (not_elem_of_empty x Hin).
  - intros Hsub. apply set_eq. intros x. rewrite elem_of_difference.
    split; [intros [Hx Hy]; destruct (Hy (Hsub x Hx)) |
            intros Hx; destruct (not_elem_of_empty x Hx)].
Qed.

Section format.

Context `{Env}.

(** The two checks accept exactly the field sets between the required
    and the allowed fields. *)
Lemma check_experiment_fields_accepts fieldnames :
  check_experiment_fields fieldnames = Return tt <->
  REQUIRED_EXPERIMENT_FIELDS ⊆ field_set fieldnames /\
  field_set fieldnames ⊆ ALLOWED_EXPERIMENT_FIELDS.
Proof.
  unfold check_experiment_fields. cbv zeta.
  rewrite <- !difference_empty_subseteq.
  destruct (decide (REQUIRED_EXPERIMENT_FIELDS ∖ field_set fieldnames = ∅)) as [Hreq|Hreq].
  - rewrite (bool_decide_eq_false_2 _ (λ Hne, Hne Hreq)).
    destruct (decide (field_set fieldnames ∖ ALLOWED_EXPERIMENT_FIELDS = ∅)) as [Hall|Hall].
    + rewrite (bool_decide_eq_false_2 _ (λ Hne, Hne Hall)).
      split; [intros _; split; assumption | reflexivity].
    + rewrite (bool_decide_eq_true_2 _ Hall).
      split; [discriminate | intros [_ Hall']; destruct (Hall Hall')].
  - rewrite (bool_decide_eq_true_2 _ Hreq).
    split; [discriminate | intros [Hreq' _]; destruct (Hreq Hreq')].
Qed.

(** X3.  An existing file whose header row reads as [fieldnames] passes
    [validate_dataset_format] for the experiment format exactly when its
    set of fields contains the required fields and is contained in the
    allowed ones: the order of the columns and repeated columns do not
    matter. *)
Theorem validate_format_accepts_iff filename content fieldnames (w : World) :
  files w !! filename = Some content ->
  DictReader_fieldnames content = Return fieldnames ->
  (validate_dataset_format filename EXPERIMENT w = (Return tt, w) <->
   REQUIRED_EXPERIMENT_FIELDS ⊆ field_set fieldnames /\
   field_set fieldnames ⊆ ALLOWED_EXPERIMENT_FIELDS).
Proof.
  intros Hfile Hread.
  rewrite (validate_dataset_format_experiment _ _ _ Hfile), Hread.
  rewrite <- check_experiment_fields_accepts.
  split; [intros [= ->]; reflexivity | intros ->; reflexivity].
Qed.

(** X4.  Only [UnicodeError] is translated: when reading the header row
    raises an exception of another class, [validate_dataset_format]
    raises that very exception. *)
Theorem validate_format_other_errors_pass filename content e (w : World) :
  files w !! filename = Some content ->
  DictReader_fieldnames content = Raise e ->
  isinstance_UnicodeError e = false ->
  validate_dataset_format filename EXPERIMENT w = (Raise e, w).
Proof.
  intros Hfile Hread Hclass.
  rewrite (validate_dataset_format_experiment _ _ _ Hfile), Hread, Hclass.
  reflexivity.
Qed.

End format.

(** X3 on a header row with the columns in the other order and one of
    them twice. *)
Lemma validate_format_accepts_iff_witness :
  let E := Sample.env 100 true in
  let content := Sample.bytes_of ("ground_truth,examples,examples" +:+ Sample.LF) in
  let w := Sample.one_file "upload.csv" content ∅ in
  validate_dataset_format "upload.csv" EXPERIMENT w = (Return tt, w).
Proof.
  intros E content w.
  apply (validate_format_accepts_iff (H:=E) "upload.csv" content
           (Some ["ground_truth"; "examples"; "examples"]) w eq_refl eq_refl).
  unfold REQUIRED_EXPERIMENT_FIELDS, ALLOWED_EXPERIMENT_FIELDS, field_set. simpl.
  split; set_solver.
Defined.

(** X4 on a file with a NUL byte, read with a reader that refuses it. *)
Lemma validate_format_other_errors_pass_witness :
  let E := SampleService.env_nul 100 true in
  let content := [Byte.x65; Byte.x00; Byte.x66] in
  let w := Sample.one_file "upload.csv" content ∅ in
  let e := LibraryError "_csv.Error" "line contains NUL" in
  DictReader_fieldnames content = Raise e /\
  isinstance_UnicodeError e = false /\
  validate_dataset_format "upload.csv" EXPERIMENT w = (Raise e, w).
Proof.
  intros E content w e.
  split; [reflexivity|]. split; [reflexivity|].
  apply (validate_format_other_errors_pass (H:=E) "upload.csv" content e w
           eq_refl eq_refl eq_refl).
Defined.

End FormatMore.

(** ** More on the upload flow *)

Module FlowMore.

Import Datasets SizeGuardFacts SizeGuardMore FormatFacts FlowFacts.

Section flow.

Context `{Env}.

(** A format tag other than the experiment format never passes. *)
Lemma validate_format_unknown_tag_raises filename format (w w1 : World) :
  format <> EXPERIMENT ->
  validate_dataset_format filename format w = (Return tt, w1) -> False.
Proof.
  intros Hne. unfold validate_dataset_format, try_except.
  apply String.eqb_neq in Hne. rewrite Hne. unfold raise. simpl. discriminate.
Qed.

Lemma world_eq (w w' : World) :
  files w = files w' -> records w = records w' -> s3 w = s3 w' -> w = w'.
Proof. destruct w, w'. simpl. intros -> -> ->. reflexivity. Qed.

(** The run of [upload_dataset], step by step: the size guard on the
    upload, the format check on the bytes buffered, the record, the
    storage write. *)
Lemma upload_dataset_run dataset format (w : World) :
  let temp := fresh (dom (files w)) in
  upload_dataset dataset format w =
    match validate_file_size (file dataset) [] MAX_DATASET_SIZE with
    | (Raise e, _) => (Raise e, w)
    | (Return actual_size, (_, output)) =>
        let buffered := set_files (insert temp output) w in
        match (validate_dataset_format temp format buffered).1 with
        | Raise e => (Raise e, w)
        | Return _ =>
            let record := {| id := fresh (dom (records w));
                             filename := upload_filename dataset;
                             format := format; size := actual_size |} in
            match load_dataset temp (files buffered) with
            | Raise e => (Raise (HTTPException 500 (exc_str e)), w)
            | Return dataset_hf =>
                match save_to_disk dataset_hf
                        ("s3://" +:+ PosixPath.joinpath S3_BUCKET (_get_s3_key (id record) (filename record))) (s3 w) with
                | (Return _, store) =>
                    (Return (model_validate record),
                     {| files := files w;
                        records := <[id record := record]> (records w);
                        s3 := store |})
                | (Raise e, store) =>
                    (Raise (HTTPException 500 (exc_str e)),
                     {| files := files w; records := records w; s3 := store |})
                end
            end
        end
    end.
Proof.
  intros temp.
  assert (files w !! temp = None) as Hfresh by apply fresh_file_absent.
  assert (records w !! fresh (dom (records w)) = None) as Hrec
    by apply fresh_record_absent.
  unfold upload_dataset, NamedTemporaryFile, try_finally.
  unfold mbind at 1 2. unfold M_bind at 1 2. fold temp.
  unfold mbind at 1. unfold M_bind at 1. unfold with_buffer.
  simpl files. rewrite lookup_insert_eq. simpl default.
  destruct (validate_file_size (file dataset) [] MAX_DATASET_SIZE)
    as [[actual_size|e] [unread output]].
  - assert (set_files (insert temp output) (set_files (insert temp []) w)
            = set_files (insert temp output) w) as ->
      by (apply world_eq; try reflexivity; simpl; apply insert_insert_eq).
    assert (forall store,
              {| files := delete temp (<[temp:=output]> (files w));
                 records := records w; s3 := store |}
              = {| files := files w; records := records w; s3 := store |}) as Hgone
      by (intros store; rewrite delete_insert_id by exact Hfresh; reflexivity).
    assert ({| files := files w; records := records w; s3 := s3 w |} = w) as Heta
      by (apply world_eq; reflexivity).
    unfold mbind, M_bind.
    pose proof (validate_dataset_format_state temp format
                  (set_files (insert temp output) w)) as Hstate.
    destruct (validate_dataset_format temp format _) as [[[]|e] w3];
      simpl in Hstate; subst w3; simpl fst.
    + unfold repo_create. cbv beta zeta. simpl id.
      rewrite save_dataset_to_s3_run. simpl files. simpl records. simpl s3.
      cbn [Datasets.id Datasets.filename].
      destruct (load_dataset temp _) as [dataset_hf|e].
      * destruct (save_to_disk _ _ _) as [[[]|e] store]; unfold unlink; simpl;
          rewrite lookup_insert_eq; unfold mret, M_ret, set_files; simpl.
        -- rewrite delete_insert_id by exact Hfresh. reflexivity.
        -- rewrite (delete_insert_id (records w)) by exact Hrec. rewrite Hgone. reflexivity.
      * unfold unlink. simpl. rewrite lookup_insert_eq.
        unfold mret, M_ret, set_files. simpl.
        rewrite (delete_insert_id (records w)) by exact Hrec. rewrite Hgone, Heta. reflexivity.
    + unfold unlink. simpl. rewrite lookup_insert_eq.
      unfold mret, M_ret, set_files. simpl.
      rewrite Hgone, Heta. reflexivity.
  - unfold unlink. simpl. rewrite lookup_insert_eq.
    unfold mret, M_ret, set_files. simpl.
    rewrite insert_insert_eq, delete_insert_id by exact Hfresh.
    replace {| files := files w; records := records w; s3 := s3 w |} with w
      by (apply world_eq; reflexivity).
    reflexivity.
Qed.

(** Rewriting with what is known of the format check of the run. *)
Ltac use_check Hcheck :=
  match goal with
  | |- match ?t with Return _ => _ | Raise _ => _ end = _ =>
      match type of Hcheck with
      | _ = ?r => replace t with r by (symmetry; exact Hcheck)
      end
  end.

(** On a source within the limit the size guard hands the whole upload
    to the buffer. *)
Lemma validate_file_size_fits input max_size :
  total_length input <= max_size ->
  validate_file_size input [] max_size = (Return (total_length input), ([], concat input)).
Proof.
  intros Hfit. unfold validate_file_size.
  rewrite validate_file_size_from_fits by lia. reflexivity.
Qed.

(** X5.  An upload larger than the limit changes nothing: the 413
    exception is raised, and the local files, the record store and the
    object store are as before the call. *)
Theorem upload_dataset_too_large dataset format (w : World) :
  0 <= MAX_DATASET_SIZE ->
  total_length (file dataset) > MAX_DATASET_SIZE ->
  upload_dataset dataset format w =
    (Raise (HTTPException 413
              ("File upload exceeds the " +:+ human_readable MAX_DATASET_SIZE
               +:+ " limit.")), w).
Proof.
  intros Hmax Hover. rewrite upload_dataset_run.
  destruct (validate_file_size_from_overflow (file dataset) 0 [] MAX_DATASET_SIZE)
    as (before & chunk & after & _ & _ & _ & Hraise); [lia | lia |].
  unfold validate_file_size. rewrite Hraise. reflexivity.
Qed.

(** X6.  An upload within the limit that the format check refuses
    changes nothing either: the check runs on exactly the bytes uploaded,
    its exception is the one raised, no record is created and the object
    store is not written. *)
Theorem upload_dataset_refused dataset format (w : World) e :
  total_length (file dataset) <= MAX_DATASET_SIZE ->
  (validate_dataset_format (fresh (dom (files w))) format
     (set_files (insert (fresh (dom (files w))) (concat (file dataset))) w)).1
    = Raise e ->
  upload_dataset dataset format w = (Raise e, w).
Proof.
  intros Hfit Hcheck. rewrite upload_dataset_run.
  rewrite (validate_file_size_fits _ _ Hfit). cbv beta iota zeta.
  use_check Hcheck. reflexivity.
Qed.

(** X7.  An upload within the limit that passes the format check, loads
    and is saved returns the response made from a new record: its id is
    one not in use, its size the number of bytes uploaded.  The record
    is stored under that id, the dataset is saved under ["s3://"]
    followed by [str(Path(bucket) / key)] for the key
    [<prefix>/<id>/<filename>], the path joined and normalised as
    pathlib does, and the local files are as before. *)
Theorem upload_dataset_stored dataset format (w : World) dataset_hf store :
  let temp := fresh (dom (files w)) in
  let buffered := set_files (insert temp (concat (file dataset))) w in
  let record := {| id := fresh (dom (records w));
                   filename := upload_filename dataset;
                   format := format;
                   size := total_length (file dataset) |} in
  total_length (file dataset) <= MAX_DATASET_SIZE ->
  (validate_dataset_format temp format buffered).1 = Return tt ->
  load_dataset temp (files buffered) = Return dataset_hf ->
  save_to_disk dataset_hf
    ("s3://" +:+ PosixPath.joinpath S3_BUCKET
               (S3_DATASETS_PREFIX +:+ "/" +:+ id record +:+ "/"
                +:+ upload_filename dataset)) (s3 w)
    = (Return tt, store) ->
  upload_dataset dataset format w =
    (Return (model_validate record),
     {| files := files w;
        records := <[id record := record]> (records w);
        s3 := store |}).
Proof.
  intros temp buffered record Hfit Hcheck Hload Hsave.
  rewrite upload_dataset_run.
  rewrite (validate_file_size_fits _ _ Hfit). cbv beta iota zeta.
  use_check Hcheck. use_check Hload.
  unfold _get_s3_key. cbn [Datasets.id Datasets.filename].
  unfold record in Hsave. cbn [Datasets.id] in Hsave. rewrite Hsave. reflexivity.
Qed.

(** X8.  A storage write that fails leaves the object store as the
    failed write left it: the 500 exception is raised, the record and
    the temporary file are gone, and nothing undoes what [save_to_disk]
    did before it raised. *)
Theorem upload_dataset_failed_write dataset format (w : World) dataset_hf cause store :
  let temp := fresh (dom (files w)) in
  let buffered := set_files (insert temp (concat (file dataset))) w in
  total_length (file dataset) <= MAX_DATASET_SIZE ->
  (validate_dataset_format temp format buffered).1 = Return tt ->
  load_dataset temp (files buffered) = Return dataset_hf ->
  save_to_disk dataset_hf
    ("s3://" +:+ PosixPath.joinpath S3_BUCKET
               (S3_DATASETS_PREFIX +:+ "/" +:+ fresh (dom (records w)) +:+ "/"
                +:+ upload_filename dataset)) (s3 w)
    = (Raise cause, store) ->
  upload_dataset dataset format w =
    (Raise (HTTPException 500 (exc_str cause)),
     {| files := files w; records := records w; s3 := store |}).
Proof.
  intros temp buffered Hfit Hcheck Hload Hsave.
  rewrite upload_dataset_run.
  rewrite (validate_file_size_fits _ _ Hfit). cbv beta iota zeta.
  use_check Hcheck. use_check Hload.
  unfold _get_s3_key. cbn [Datasets.id Datasets.filename].
  rewrite Hsave. reflexivity.
Qed.

(** X9.  What a response of [upload_dataset] guarantees: the format is
    the experiment format, the upload was within the limit (when the
    limit is not negative), the response carries the file name of the
    upload and the number of bytes uploaded, and the record store has
    gained the record of the response, under an id that was not in use,
    and nothing else. *)
Theorem upload_dataset_response dataset format (w w' : World) response :
  0 <= MAX_DATASET_SIZE ->
  upload_dataset dataset format w = (Return response, w') ->
  format = EXPERIMENT /\
  total_length (file dataset) <= MAX_DATASET_SIZE /\
  response_filename response = upload_filename dataset /\
  response_format response = format /\
  response_size response = total_length (file dataset) /\
  records w !! response_id response = None /\
  records w' = <[response_id response :=
                   {| id := response_id response;
                      filename := upload_filename dataset;
                      format := format;
                      size := total_length (file dataset) |}]> (records w) /\
  files w' = files w.
Proof.
  intros Hmax Hrun. rewrite upload_dataset_run in Hrun.
  destruct (validate_file_size (file dataset) [] MAX_DATASET_SIZE)
    as [[actual_size|e] [unread output]] eqn:Hsize; [|discriminate Hrun].
  destruct (validate_file_size_return_inv _ _ _ _ _ Hmax Hsize)
    as (-> & Hfit & _).
  cbv zeta in Hrun.
  destruct (validate_dataset_format _ format _) as [[[]|e] w1] eqn:Hcheck;
    simpl fst in Hrun; [|discriminate Hrun].
  assert (format = EXPERIMENT) as Hformat.
  { destruct (String.eqb_spec format EXPERIMENT) as [Heq|Hne]; [exact Heq|].
    destruct (validate_format_unknown_tag_raises _ _ _ _ Hne Hcheck). }
  destruct (load_dataset _ _) as [dataset_hf|e]; [|discriminate Hrun].
  destruct (save_to_disk _ _ _) as [[[]|e] store]; [|discriminate Hrun].
  injection Hrun as <- <-. simpl.
  repeat split; try assumption; try reflexivity.
  apply fresh_record_absent.
Qed.

End flow.
(** The state after the sample upload of a well-formed dataset. *)
Lemma sample_upload :
  upload_dataset (H := Sample.env 100 true) SampleService.sample_dataset EXPERIMENT
    (Sample.empty_world ∅)
  = (Return (model_validate SampleService.stored_record), SampleService.stored_world true).
Proof. vm_compute. reflexivity. Qed.

(** X5 on an upload of 34 bytes with a limit of 10 bytes. *)
Lemma upload_dataset_too_large_witness :
  let E := Sample.env 10 true in
  let dataset := {| file := [Sample.good_csv]; upload_filename := "data.csv" |} in
  let w := Sample.empty_world ∅ in
  0 <= MAX_DATASET_SIZE /\
  total_length (file dataset) > MAX_DATASET_SIZE /\
  upload_dataset dataset EXPERIMENT w
    = (Raise (HTTPException 413 "File upload exceeds the 10B limit."), w).
Proof.
  intros E dataset w.
  assert (0 <= MAX_DATASET_SIZE) as Hmax by (vm_compute; discriminate).
  assert (total_length (file dataset) > MAX_DATASET_SIZE) as Hover by reflexivity.
  split; [exact Hmax|]. split; [exact Hover|].
  exact (upload_dataset_too_large (H:=E) dataset EXPERIMENT w Hmax Hover).
Defined.

(** X6 on an upload without the required column. *)
Lemma upload_dataset_refused_witness :
  let E := Sample.env 100 true in
  let dataset := {| file := [Sample.no_examples_csv]; upload_filename := "data.csv" |} in
  let w := Sample.empty_world ∅ in
  let e := HTTPException 403
             "Experiment dataset is missing the required fields: {examples}." in
  total_length (file dataset) <= MAX_DATASET_SIZE /\
  upload_dataset dataset EXPERIMENT w = (Raise e, w).
Proof.
  intros E dataset w e.
  assert (total_length (file dataset) <= MAX_DATASET_SIZE) as Hfit
    by (vm_compute; discriminate).
  split; [exact Hfit|].
  apply (upload_dataset_refused (H:=E) dataset EXPERIMENT w e Hfit).
  vm_compute. reflexivity.
Defined.

(** X7 on a well-formed upload and an object store that accepts it. *)
Lemma upload_dataset_stored_witness :
  let E := Sample.env 100 true in
  let dataset := {| file := [Sample.good_csv]; upload_filename := "data.csv" |} in
  let w := Sample.empty_world ∅ in
  let record := {| id := "0"; filename := "data.csv"; format := EXPERIMENT; size := 34 |} in
  upload_dataset dataset EXPERIMENT w =
    (Return (model_validate record),
     {| files := ∅; records := {[ "0" := record ]};
        s3 := {[ "s3://lumigator-storage/datasets/0/data.csv" := Sample.good_csv ]} |}).
Proof.
  intros E dataset w record.
  assert (total_length (file dataset) <= MAX_DATASET_SIZE) as Hfit
    by (vm_compute; discriminate).
  exact (upload_dataset_stored (H:=E) dataset EXPERIMENT w Sample.good_csv
           {[ "s3://lumigator-storage/datasets/0/data.csv" := Sample.good_csv ]}
           Hfit eq_refl eq_refl eq_refl).
Defined.

(** X8 on a well-formed upload and an object store that refuses it. *)
Lemma upload_dataset_failed_write_witness :
  let E := Sample.env 100 false in
  let dataset := {| file := [Sample.good_csv]; upload_filename := "data.csv" |} in
  let w := Sample.empty_world ∅ in
  upload_dataset dataset EXPERIMENT w =
    (Raise (HTTPException 500 "connection refused"),
     {| files := ∅; records := ∅; s3 := ∅ |}).
Proof.
  intros E dataset w.
  assert (total_length (file dataset) <= MAX_DATASET_SIZE) as Hfit
    by (vm_compute; discriminate).
  exact (upload_dataset_failed_write (H:=E) dataset EXPERIMENT w Sample.good_csv
           (LibraryError "ClientError" "connection refused") ∅
           Hfit eq_refl eq_refl eq_refl).
Defined.

(** X9 on the response of the sample upload. *)
Lemma upload_dataset_response_witness :
  let E := Sample.env 100 true in
  let response := model_validate SampleService.stored_record in
  0 <= MAX_DATASET_SIZE /\
  upload_dataset SampleService.sample_dataset EXPERIMENT (Sample.empty_world ∅)
    = (Return response, SampleService.stored_world true) /\
  response_filename response = "data.csv" /\
  response_size response = total_length [Sample.good_csv] /\
  total_length [Sample.good_csv] <= MAX_DATASET_SIZE.
Proof.
  intros E response.
  assert (0 <= MAX_DATASET_SIZE) as Hmax by (vm_compute; discriminate).
  destruct (upload_dataset_response (H:=E) SampleService.sample_dataset EXPERIMENT
              (Sample.empty_world ∅) (SampleService.stored_world true) response
              Hmax sample_upload)
    as (_ & Hfit & Hname & _ & Hsize & _).
  split; [exact Hmax|]. split; [exact sample_upload|].
  split; [exact Hname|]. split; [exact Hsize | exact Hfit].
Defined.

End FlowMore.

(** ** The other service methods *)

Module ServiceFacts.

Import Datasets Service FlowFacts FlowMore.

Lemma list_ascii_of_string_app a b :
  String.list_ascii_of_string (a +:+ b)
  = String.list_ascii_of_string a ++ String.list_ascii_of_string b.
Proof. induction a as [|c a IH]; simpl; [reflexivity | rewrite IH; reflexivity]. Qed.

Lemma append_inj_r a b s : a +:+ s = b +:+ s -> a = b.
Proof.
  intros Heq. apply (f_equal String.list_ascii_of_string) in Heq.
  rewrite !list_ascii_of_string_app in Heq. apply app_inv_tail in Heq.
  apply (f_equal String.string_of_list_ascii) in Heq.
  rewrite !String.string_of_list_ascii_of_string in Heq. exact Heq.
Qed.

Section methods.

Context `{S3Ops}.

Lemma get_dataset_record_found dataset_id record (w : World) :
  records w !! dataset_id = Some record ->
  _get_dataset_record dataset_id w = (Return record, w).
Proof.
  intros Hfound. unfold _get_dataset_record, mbind, M_bind, repo_get.
  rewrite Hfound. reflexivity.
Qed.

Lemma get_dataset_record_missing dataset_id (w : World) :
  records w !! dataset_id = None ->
  _get_dataset_record dataset_id w =
    (Raise (HTTPException 404 ("Dataset '" +:+ dataset_id +:+ "' not found.")), w).
Proof.
  intros Hmissing. unfold _get_dataset_record, mbind, M_bind, repo_get.
  rewrite Hmissing. reflexivity.
Qed.

(** [delete_dataset] on a stored record, by the outcome of the removal
    from the object store. *)
Lemma delete_dataset_run dataset_id record (w : World) :
  records w !! dataset_id = Some record ->
  delete_dataset dataset_id w =
    match rm ("s3://" +:+ PosixPath.joinpath S3_BUCKET (_get_s3_key (id record) (filename record))) (s3 w) with
    | (Return _, store) =>
        (Return tt,
         {| files := files w; records := delete (id record) (records w); s3 := store |})
    | (Raise e, store) =>
        (Raise (HTTPException 500 (exc_str e)),
         {| files := files w; records := records w; s3 := store |})
    end.
Proof.
  intros Hfound. unfold delete_dataset. unfold mbind at 1. unfold M_bind at 1.
  rewrite (get_dataset_record_found _ _ _ Hfound).
  unfold try_except, mbind, M_bind, call_rm.
  destruct (rm _ (s3 w)) as [[[]|e] store]; reflexivity.
Qed.

(** The loop over the listing collects one url per object, in order, or
    stops at the first object for which no url can be made. *)
Lemma presign_all (url : string -> string) objects : forall download_urls,
  (forall o, o ∈ objects ->
     generate_presigned_url S3_BUCKET (Key o) S3_URL_EXPIRATION = Return (url (Key o))) ->
  presign objects download_urls = Return (download_urls ++ map (λ o, url (Key o)) objects).
Proof.
  induction objects as [|o objects IH]; intros download_urls Hurl.
  - simpl. rewrite app_nil_r. reflexivity.
  - simpl. rewrite (Hurl o) by (apply elem_of_cons; left; reflexivity).
    rewrite IH by (intros o' Hin; apply Hurl, elem_of_cons; right; exact Hin).
    rewrite <- app_assoc. reflexivity.
Qed.

Lemma presign_length objects : forall download_urls urls,
  presign objects download_urls = Return urls ->
  length urls = (length download_urls + length objects)%nat.
Proof.
  induction objects as [|o objects IH]; intros download_urls urls Hrun; simpl in Hrun.
  - injection Hrun as <-. simpl. lia.
  - destruct (generate_presigned_url _ _ _) as [download_url|e]; [|discriminate Hrun].
    rewrite (IH _ _ Hrun), length_app. simpl. lia.
Qed.

(** [get_dataset_download] on a stored record, step by step. *)
Lemma get_dataset_download_run dataset_id record (w : World) :
  records w !! dataset_id = Some record ->
  let dataset_key := _get_s3_key dataset_id (filename record) in
  get_dataset_download dataset_id w =
    (match list_objects_v2 S3_BUCKET dataset_key (s3 w) with
     | Raise e => Raise (HTTPException 500 (exc_str e))
     | Return s3_response =>
         if bool_decide (KeyCount s3_response = Some 0) then
           Raise (HTTPException 500
                    (exc_str (HTTPException 404
                                ("No files found with prefix '" +:+ dataset_key +:+ "'."))))
         else
           match Contents s3_response with
           | None => Raise (HTTPException 500 (exc_str (LibraryError "KeyError" "'Contents'")))
           | Some contents =>
               match presign contents [] with
               | Return download_urls =>
                   Return {| download_id := dataset_id; download_urls := download_urls |}
               | Raise e => Raise (HTTPException 500 (exc_str e))
               end
           end
     end, w).
Proof.
  intros Hfound dataset_key. unfold get_dataset_download.
  unfold mbind at 1. unfold M_bind at 1.
  rewrite (get_dataset_record_found _ _ _ Hfound).
  fold dataset_key. unfold try_except, mbind, M_bind, lift.
  destruct (list_objects_v2 _ _ _) as [s3_response|e]; [|reflexivity].
  destruct (bool_decide (KeyCount s3_response = Some 0)); [reflexivity|].
  simpl. destruct (Contents s3_response) as [contents|]; [|reflexivity].
  simpl. destruct (presign contents []) as [download_urls|e]; reflexivity.
Qed.

(** What [upload_dataset] has done when it returns. *)
Lemma upload_dataset_returns dataset format (w w' : World) response :
  upload_dataset dataset format w = (Return response, w') ->
  exists actual_size,
    let record := {| id := fresh (dom (records w));
                     filename := upload_filename dataset;
                     format := format; size := actual_size |} in
    response = model_validate record /\
    records w' = <[id record := record]> (records w) /\
    files w' = files w.
Proof.
  intros Hrun. rewrite upload_dataset_run in Hrun.
  destruct (validate_file_size _ _ _) as [[actual_size|e] [unread output]];
    [|discriminate Hrun].
  cbv zeta in Hrun.
  destruct (validate_dataset_format _ _ _).1 as [[]|e]; [|discriminate Hrun].
  destruct (load_dataset _ _) as [dataset_hf|e]; [|discriminate Hrun].
  destruct (save_to_disk _ _ _) as [[[]|e] store]; [|discriminate Hrun].
  injection Hrun as <- <-. exists actual_size. repeat split.
Qed.

(** X10.  Called without a record, [_save_dataset_to_s3] writes nothing
    and deletes nothing: it raises the 500 exception, made from the
    failure to load the file or else from the attribute error on the
    missing record, and leaves the state as it is. *)
Theorem save_dataset_without_record temp (w : World) :
  _save_dataset_to_s3 temp None w =
    (Raise (HTTPException 500
              (exc_str match load_dataset temp (files w) with
                       | Raise e => e
                       | Return _ =>
                           AttributeError "'NoneType' object has no attribute 'id'"
                       end)), w).
Proof.
  unfold _save_dataset_to_s3, try_except, mbind, M_bind, call_load_dataset, attributes.
  destruct (load_dataset temp (files w)); reflexivity.
Qed.

(** The four lookups of an id that is not stored. *)
Lemma dataset_missing dataset_id (w : World) :
  records w !! dataset_id = None ->
  let not_found {A} : Result A * World :=
    (Raise (HTTPException 404 ("Dataset '" +:+ dataset_id +:+ "' not found.")), w) in
  get_dataset dataset_id w = not_found /\
  get_dataset_s3_path dataset_id w = not_found /\
  delete_dataset dataset_id w = not_found /\
  get_dataset_download dataset_id w = not_found.
Proof.
  intros Hmissing not_found.
  unfold get_dataset, get_dataset_s3_path, delete_dataset, get_dataset_download.
  unfold mbind, M_bind.
  rewrite (get_dataset_record_missing _ _ Hmissing).
  repeat split.
Qed.

(** X11.  For an id under which no record is stored, [get_dataset],
    [get_dataset_s3_path], [delete_dataset] and [get_dataset_download]
    all raise the same 404 exception, which names the id, and leave the
    state as it is: the 404 is not turned into a 500, and the object
    store is not called. *)
Theorem unknown_dataset_not_found dataset_id (w : World) :
  records w !! dataset_id = None ->
  let not_found {A} : Result A * World :=
    (Raise (HTTPException 404 ("Dataset '" +:+ dataset_id +:+ "' not found.")), w) in
  get_dataset dataset_id w = not_found /\
  get_dataset_s3_path dataset_id w = not_found /\
  delete_dataset dataset_id w = not_found /\
  get_dataset_download dataset_id w = not_found.
Proof.
  intros Hmissing not_found.
  unfold get_dataset, get_dataset_s3_path, delete_dataset, get_dataset_download.
  unfold mbind, M_bind.
  rewrite (get_dataset_record_missing _ _ Hmissing).
  repeat split.
Qed.

(** X12.  What [upload_dataset] returns can be read back: on the state
    it leaves, [get_dataset] for the id of the response returns the same
    response, and [get_dataset_s3_path] returns ["s3://"] followed by
    [str(Path(bucket) / key)] for the key [<prefix>/<id>/<filename>]
    with the file name of the upload, the path joined and normalised as
    pathlib does: the path the upload was saved under. *)
Theorem upload_then_get dataset format (w w' : World) response :
  upload_dataset dataset format w = (Return response, w') ->
  get_dataset (response_id response) w' = (Return response, w') /\
  get_dataset_s3_path (response_id response) w' =
    (Return ("s3://" +:+ PosixPath.joinpath S3_BUCKET
               (S3_DATASETS_PREFIX +:+ "/" +:+ response_id response +:+ "/"
                +:+ upload_filename dataset)), w').
Proof.
  intros Hrun.
  destruct (upload_dataset_returns _ _ _ _ _ Hrun) as (actual_size & -> & Hrecords & _).
  cbv zeta in Hrecords. simpl in Hrecords. simpl response_id.
  assert (records w' !! fresh (dom (records w))
          = Some {| id := fresh (dom (records w)); filename := upload_filename dataset;
                    format := format; size := actual_size |}) as Hfound
    by (rewrite Hrecords; apply lookup_insert_eq).
  unfold get_dataset, get_dataset_s3_path, mbind, M_bind.
  rewrite (get_dataset_record_found _ _ _ Hfound). split; reflexivity.
Qed.

(** X13.  [delete_dataset] removes from the object store first.  When
    that removal raises, the 500 exception is raised and the record is
    still stored; when it returns, the record is deleted. *)
Theorem delete_dataset_storage_first dataset_id record (w : World) :
  records w !! dataset_id = Some record ->
  let dataset_path :=
    "s3://" +:+ PosixPath.joinpath S3_BUCKET (_get_s3_key (id record) (filename record)) in
  (forall cause store,
     rm dataset_path (s3 w) = (Raise cause, store) ->
     delete_dataset dataset_id w =
       (Raise (HTTPException 500 (exc_str cause)),
        {| files := files w; records := records w; s3 := store |})) /\
  (forall store,
     rm dataset_path (s3 w) = (Return tt, store) ->
     delete_dataset dataset_id w =
       (Return tt,
        {| files := files w; records := delete (id record) (records w);
           s3 := store |})).
Proof.
  intros Hfound dataset_path.
  rewrite (delete_dataset_run _ _ _ Hfound). fold dataset_path.
  split; [intros cause store Hrm | intros store Hrm]; rewrite Hrm; reflexivity.
Qed.

(** X14.  Deleting what was uploaded: on the state an upload leaves,
    [delete_dataset] for the id of the response asks the object store to
    remove the path the dataset was saved under, ["s3://"] followed by
    [str(Path(bucket) / key)] for the key [<prefix>/<id>/<filename>],
    and, when that returns, leaves the record store as it was before
    the upload. *)
Theorem upload_then_delete dataset format (w w' : World) response store :
  upload_dataset dataset format w = (Return response, w') ->
  rm ("s3://" +:+ PosixPath.joinpath S3_BUCKET
               (S3_DATASETS_PREFIX +:+ "/" +:+ response_id response +:+ "/"
                +:+ upload_filename dataset)) (s3 w')
    = (Return tt, store) ->
  delete_dataset (response_id response) w' =
    (Return tt, {| files := files w; records := records w; s3 := store |}).
Proof.
  intros Hrun Hrm.
  destruct (upload_dataset_returns _ _ _ _ _ Hrun)
    as (actual_size & -> & Hrecords & Hfiles).
  cbv zeta in Hrecords. simpl in Hrecords. simpl response_id in *.
  assert (records w' !! fresh (dom (records w))
          = Some {| id := fresh (dom (records w)); filename := upload_filename dataset;
                    format := format; size := actual_size |}) as Hfound
    by (rewrite Hrecords; apply lookup_insert_eq).
  rewrite (delete_dataset_run _ _ _ Hfound).
  unfold _get_s3_key. cbn [Datasets.id Datasets.filename]. rewrite Hrm.
  rewrite Hfiles, Hrecords, delete_insert_id by apply fresh_record_absent.
  reflexivity.
Qed.

Lemma store_ok_insert (w : World) record records' :
  store_ok w ->
  records' = <[id record := record]> (records w) ->
  forall k r, records' !! k = Some r -> id r = k.
Proof.
  intros Hok -> k r. rewrite lookup_insert. case_decide as Hk.
  - intros [= <-]. exact Hk.
  - apply Hok.
Qed.

Lemma store_ok_delete (w : World) record_id records' :
  store_ok w ->
  records' = delete record_id (records w) ->
  forall k r, records' !! k = Some r -> id r = k.
Proof.
  intros Hok -> k r. rewrite lookup_delete. case_decide as Hk.
  - discriminate.
  - apply Hok.
Qed.

(** X15.  Every record is stored under its own id: when this holds
    before a call of [upload_dataset] or of [delete_dataset], it holds
    afterwards, whether the call returns or raises. *)
Theorem store_ok_preserved (w : World) :
  store_ok w ->
  (forall dataset format, store_ok (upload_dataset dataset format w).2) /\
  (forall dataset_id, store_ok (delete_dataset dataset_id w).2).
Proof.
  intros Hok. split.
  - intros dataset format.
    destruct (upload_dataset_effect dataset format w) as [_ Hrecords].
    destruct (upload_dataset dataset format w) as [[response|e] w'];
      simpl in Hrecords |- *.
    + destruct Hrecords as (record & _ & _ & Hrecords).
      exact (store_ok_insert w record _ Hok Hrecords).
    + unfold store_ok. rewrite Hrecords. exact Hok.
  - intros dataset_id.
    destruct (records w !! dataset_id) as [record|] eqn:Hfound.
    + rewrite (delete_dataset_run _ _ _ Hfound).
      destruct (rm _ (s3 w)) as [[[]|e] store]; simpl.
      * exact (store_ok_delete w (id record) _ Hok eq_refl).
      * exact Hok.
    + destruct (dataset_missing dataset_id w Hfound) as (_ & _ & -> & _).
      exact Hok.
Qed.

(** X16.  In a store where every record is under its own id, a dataset
    that [delete_dataset] has deleted is not found any more: on the state
    left by a call that returned, [get_dataset] and a second
    [delete_dataset] for the same id raise the 404 exception. *)
Theorem delete_dataset_then_not_found dataset_id (w w' : World) :
  store_ok w ->
  delete_dataset dataset_id w = (Return tt, w') ->
  get_dataset dataset_id w' =
    (Raise (HTTPException 404 ("Dataset '" +:+ dataset_id +:+ "' not found.")), w') /\
  delete_dataset dataset_id w' =
    (Raise (HTTPException 404 ("Dataset '" +:+ dataset_id +:+ "' not found.")), w').
Proof.
  intros Hok Hrun.
  assert (records w' !! dataset_id = None) as Hgone.
  { destruct (records w !! dataset_id) as [record|] eqn:Hfound.
    - rewrite (delete_dataset_run _ _ _ Hfound) in Hrun.
      destruct (rm _ (s3 w)) as [[[]|e] store]; [|discriminate Hrun].
      injection Hrun as <-. simpl. rewrite (Hok _ _ Hfound). apply lookup_delete_eq.
    - destruct (dataset_missing dataset_id w Hfound) as (_ & _ & Hraise & _).
      rewrite Hraise in Hrun. discriminate Hrun. }
  destruct (dataset_missing dataset_id w' Hgone) as (Hget & _ & Hdelete & _).
  split; assumption.
Qed.

(** X17.  When the listing for a stored dataset reports no object
    ([KeyCount] is 0), [get_dataset_download] raises a 500 exception: the
    404 exception "No files found with prefix ..." raised inside the
    [try] block is caught by its [except Exception] clause and wrapped. *)
Theorem download_no_files_is_500 dataset_id record s3_response (w : World) :
  records w !! dataset_id = Some record ->
  list_objects_v2 S3_BUCKET (_get_s3_key dataset_id (filename record)) (s3 w)
    = Return s3_response ->
  KeyCount s3_response = Some 0 ->
  get_dataset_download dataset_id w =
    (Raise (HTTPException 500
              (exc_str (HTTPException 404
                          ("No files found with prefix '"
                           +:+ _get_s3_key dataset_id (filename record) +:+ "'.")))),
     w).
Proof.
  intros Hfound Hlist Hcount.
  rewrite (get_dataset_download_run _ _ _ Hfound). cbv zeta.
  rewrite Hlist, (bool_decide_eq_true_2 _ Hcount). reflexivity.
Qed.

(** X18.  When the listing for a stored dataset has objects and a url
    can be made for each of them, [get_dataset_download] returns the id
    with one url per object, in the order of the listing, and leaves the
    state as it is. *)
Theorem download_urls_in_order dataset_id record s3_response contents
    (url : string -> string) (w : World) :
  records w !! dataset_id = Some record ->
  list_objects_v2 S3_BUCKET (_get_s3_key dataset_id (filename record)) (s3 w)
    = Return s3_response ->
  KeyCount s3_response <> Some 0 ->
  Contents s3_response = Some contents ->
  (forall o, o ∈ contents ->
     generate_presigned_url S3_BUCKET (Key o) S3_URL_EXPIRATION = Return (url (Key o))) ->
  get_dataset_download dataset_id w =
    (Return {| download_id := dataset_id;
               download_urls := map (λ o, url (Key o)) contents |}, w).
Proof.
  intros Hfound Hlist Hcount Hcontents Hurl.
  rewrite (get_dataset_download_run _ _ _ Hfound). cbv zeta.
  rewrite Hlist, (bool_decide_eq_false_2 _ Hcount), Hcontents.
  rewrite (presign_all url contents [] Hurl). reflexivity.
Qed.

(** X19.  [get_dataset_download] reads only and lets no library
    exception through: it leaves the state as it is, a response has as
    many urls as the listing has objects, and an exception it raises is
    the 404 of an id that is not stored or a 500 made from a cause. *)
Theorem download_reads_only dataset_id (w : World) :
  (get_dataset_download dataset_id w).2 = w /\
  (forall response,
     (get_dataset_download dataset_id w).1 = Return response ->
     download_id response = dataset_id /\
     exists record s3_response contents,
       records w !! dataset_id = Some record /\
       list_objects_v2 S3_BUCKET (_get_s3_key dataset_id (filename record)) (s3 w)
         = Return s3_response /\
       Contents s3_response = Some contents /\
       length (download_urls response) = length contents) /\
  (forall e,
     (get_dataset_download dataset_id w).1 = Raise e ->
     e = HTTPException 404 ("Dataset '" +:+ dataset_id +:+ "' not found.") \/
     exists cause, e = HTTPException 500 (exc_str cause)).
Proof.
  destruct (records w !! dataset_id) as [record|] eqn:Hfound.
  - rewrite (get_dataset_download_run _ _ _ Hfound). cbv zeta. simpl.
    split; [reflexivity|].
    destruct (list_objects_v2 _ _ _) as [s3_response|e0] eqn:Hlist.
    + destruct (bool_decide (KeyCount s3_response = Some 0)).
      { split; [discriminate | intros e [= <-]; right; eexists; reflexivity]. }
      destruct (Contents s3_response) as [contents|] eqn:Hcontents.
      * destruct (presign contents []) as [urls|e0] eqn:Hurls.
        -- split; [|discriminate].
           intros response [= <-]. split; [reflexivity|].
           exists record, s3_response, contents.
           repeat split; try assumption.
           simpl. rewrite (presign_length _ _ _ Hurls). reflexivity.
        -- split; [discriminate | intros e [= <-]; right; eexists; reflexivity].
      * split; [discriminate | intros e [= <-]; right; eexists; reflexivity].
    + split; [discriminate | intros e [= <-]; right; eexists; reflexivity].
  - destruct (dataset_missing dataset_id w Hfound) as (_ & _ & _ & ->).
    simpl. split; [reflexivity|].
    split; [discriminate | intros e [= <-]; left; reflexivity].
Qed.

(** X20.  Keys do not collide: for one file name, two different ids
    give different keys, and for one id, two different file names give
    different keys. *)
Theorem s3_key_distinct :
  (forall id1 id2 fname, id1 <> id2 -> _get_s3_key id1 fname <> _get_s3_key id2 fname) /\
  (forall dataset_id fname1 fname2,
     fname1 <> fname2 -> _get_s3_key dataset_id fname1 <> _get_s3_key dataset_id fname2).
Proof.
  unfold _get_s3_key. split.
  - intros id1 id2 fname Hne Heq. apply Hne.
    apply String.app_inj, String.app_inj in Heq.
    exact (append_inj_r _ _ _ Heq).
  - intros dataset_id fname1 fname2 Hne Heq. apply Hne.
    apply String.app_inj, String.app_inj, String.app_inj, String.app_inj in Heq.
    exact Heq.
Qed.

End methods.
(** The path of a record whose file name has an empty component: the
    join drops it. *)
Lemma get_dataset_s3_path_normalises :
  let E := Sample.env 100 true in
  let record := {| id := "0"; filename := "a//b.csv"; format := EXPERIMENT; size := 1 |} in
  let w : World := {| files := ∅; records := {[ "0" := record ]}; s3 := ∅ |} in
  get_dataset_s3_path "0" w = (Return "s3://lumigator-storage/datasets/0/a/b.csv", w).
Proof. reflexivity. Qed.

(** X11 on an empty record store. *)
Lemma unknown_dataset_not_found_witness :
  let E := Sample.env 100 true in
  let O := SampleService.s3ops 100 true in
  let w := Sample.empty_world ∅ in
  records w !! "42" = None /\
  get_dataset "42" w = (Raise (HTTPException 404 "Dataset '42' not found."), w) /\
  delete_dataset "42" w = (Raise (HTTPException 404 "Dataset '42' not found."), w).
Proof.
  intros E O w.
  assert (records w !! "42" = None) as Hmissing by reflexivity.
  destruct (unknown_dataset_not_found (H:=E) (H0:=O) "42" w Hmissing)
    as (Hget & _ & Hdelete & _).
  split; [exact Hmissing|]. split; [exact Hget | exact Hdelete].
Defined.

(** X12 on the sample upload. *)
Lemma upload_then_get_witness :
  let E := Sample.env 100 true in
  let dataset := {| file := [Sample.good_csv]; upload_filename := "data.csv" |} in
  let record := {| id := "0"; filename := "data.csv"; format := EXPERIMENT; size := 34 |} in
  let w' : World :=
    {| files := ∅; records := {[ "0" := record ]};
       s3 := {[ "s3://lumigator-storage/datasets/0/data.csv" := Sample.good_csv ]} |} in
  upload_dataset dataset EXPERIMENT (Sample.empty_world ∅)
    = (Return (model_validate record), w') /\
  get_dataset "0" w' = (Return (model_validate record), w') /\
  get_dataset_s3_path "0" w'
    = (Return "s3://lumigator-storage/datasets/0/data.csv", w').
Proof.
  intros E dataset record w'.
  pose proof sample_upload as Hrun.
  destruct (upload_then_get (H:=E) dataset EXPERIMENT _ w' (model_validate record) Hrun)
    as [Hget Hpath].
  split; [exact Hrun|]. split; [exact Hget | exact Hpath].
Defined.

(** X13 on a stored record, with an object store that refuses the
    removal and with one that accepts it. *)
Lemma delete_dataset_storage_first_witness :
  let record := {| id := "0"; filename := "data.csv"; format := EXPERIMENT; size := 34 |} in
  let w_down : @World (Sample.env 100 false) :=
    {| files := ∅; records := {[ "0" := record ]};
       s3 := {[ "s3://lumigator-storage/datasets/0/data.csv" := Sample.good_csv ]} |} in
  let w_up : @World (Sample.env 100 true) :=
    {| files := ∅; records := {[ "0" := record ]};
       s3 := {[ "s3://lumigator-storage/datasets/0/data.csv" := Sample.good_csv ]} |} in
  delete_dataset (H0 := SampleService.s3ops 100 false) "0" w_down
    = (Raise (HTTPException 500 "connection refused"), w_down) /\
  delete_dataset (H0 := SampleService.s3ops 100 true) "0" w_up
    = (Return tt, {| files := ∅; records := ∅; s3 := ∅ |}).
Proof.
  intros record w_down w_up. split.
  - exact (proj1 (delete_dataset_storage_first (H0 := SampleService.s3ops 100 false)
                    "0" record w_down eq_refl)
             (LibraryError "ClientError" "connection refused") _ eq_refl).
  - exact (proj2 (delete_dataset_storage_first (H0 := SampleService.s3ops 100 true)
                    "0" record w_up eq_refl)
             ∅ eq_refl).
Defined.

(** X14 on the sample upload, deleted again. *)
Lemma upload_then_delete_witness :
  let E := Sample.env 100 true in
  let O := SampleService.s3ops 100 true in
  upload_dataset SampleService.sample_dataset EXPERIMENT (Sample.empty_world ∅)
    = (Return (model_validate SampleService.stored_record),
       SampleService.stored_world true) /\
  delete_dataset "0" (SampleService.stored_world true)
    = (Return tt, {| files := ∅; records := ∅; s3 := ∅ |}).
Proof.
  intros E O.
  pose proof sample_upload as Hrun.
  split; [exact Hrun|].
  exact (upload_then_delete (H0:=O) SampleService.sample_dataset EXPERIMENT
           (Sample.empty_world ∅) (SampleService.stored_world true)
           (model_validate SampleService.stored_record) ∅ Hrun eq_refl).
Defined.

(** X15 from the empty store. *)
Lemma store_ok_preserved_witness :
  let E := Sample.env 100 true in
  let O := SampleService.s3ops 100 true in
  let w := Sample.empty_world ∅ in
  store_ok w /\
  store_ok (upload_dataset SampleService.sample_dataset EXPERIMENT w).2 /\
  store_ok (delete_dataset "0" w).2.
Proof.
  intros E O w.
  assert (store_ok w) as Hok by (intros k r Hfound; discriminate Hfound).
  destruct (store_ok_preserved (H0:=O) w Hok) as [Hupload Hdelete].
  split; [exact Hok|]. split; [apply Hupload | apply Hdelete].
Defined.

(** X16 on the stored sample record. *)
Lemma delete_dataset_then_not_found_witness :
  let E := Sample.env 100 true in
  let O := SampleService.s3ops 100 true in
  let w := SampleService.stored_world true in
  let w' : World := {| files := ∅; records := ∅; s3 := ∅ |} in
  store_ok w /\
  delete_dataset "0" w = (Return tt, w') /\
  get_dataset "0" w' = (Raise (HTTPException 404 "Dataset '0' not found."), w') /\
  delete_dataset "0" w' = (Raise (HTTPException 404 "Dataset '0' not found."), w').
Proof.
  intros E O w w'.
  assert (store_ok w) as Hok.
  { intros k r Hfound. unfold w, SampleService.stored_world in Hfound. simpl in Hfound.
    apply lookup_singleton_Some in Hfound as [<- <-]. reflexivity. }
  assert (delete_dataset "0" w = (Return tt, w')) as Hrun by reflexivity.
  destruct (delete_dataset_then_not_found (H0:=O) "0" w w' Hok Hrun) as [Hget Hagain].
  split; [exact Hok|]. split; [exact Hrun|]. split; [exact Hget | exact Hagain].
Defined.

(** X17 on a record whose object is not in the store. *)
Lemma download_no_files_is_500_witness :
  let E := Sample.env 100 true in
  let O := SampleService.s3ops 100 true in
  let w := SampleService.record_only_world true in
  get_dataset_download "0" w =
    (Raise (HTTPException 500 "No files found with prefix 'datasets/0/data.csv'."), w).
Proof.
  intros E O w.
  exact (download_no_files_is_500 (H0:=O) "0" SampleService.stored_record
           {| KeyCount := Some 0; Contents := None |} w eq_refl eq_refl eq_refl).
Defined.

(** X18 on the stored sample record and its object. *)
Lemma download_urls_in_order_witness :
  let E := Sample.env 100 true in
  let O := SampleService.s3ops 100 true in
  let w := SampleService.stored_world true in
  get_dataset_download "0" w =
    (Return {| download_id := "0";
               download_urls :=
                 ["https://lumigator-storage/datasets/0/data.csv?expires=3600"] |}, w).
Proof.
  intros E O w.
  assert (Some 1 <> Some 0) as Hcount by discriminate.
  exact (download_urls_in_order (H0:=O) "0" SampleService.stored_record
           {| KeyCount := Some 1;
              Contents := Some [ {| Key := "datasets/0/data.csv" |} ] |}
           [ {| Key := "datasets/0/data.csv" |} ] SampleService.sample_url_of w
           eq_refl eq_refl Hcount eq_refl (λ o _, eq_refl)).
Defined.

(** X19 on the stored sample record and on an id that is not stored. *)
Lemma download_reads_only_witness :
  let E := Sample.env 100 true in
  let O := SampleService.s3ops 100 true in
  let w := SampleService.stored_world true in
  (get_dataset_download "0" w).2 = w /\
  (exists response,
     (get_dataset_download "0" w).1 = Return response /\
     download_id response = "0" /\
     length (download_urls response) = 1%nat) /\
  (exists e,
     (get_dataset_download "42" w).1 = Raise e /\
     (e = HTTPException 404 "Dataset '42' not found." \/
      exists cause, e = HTTPException 500 (exc_str cause))).
Proof.
  intros E O w.
  destruct (download_reads_only (H0:=O) "0" w) as (Hstate & Hreturn & _).
  destruct (download_reads_only (H0:=O) "42" w) as (_ & _ & Hraise).
  split; [exact Hstate|]. split.
  - eexists. split; [reflexivity|].
    destruct (Hreturn _ eq_refl) as (Hid & _). split; [exact Hid | reflexivity].
  - eexists. split; [reflexivity|]. apply Hraise. reflexivity.
Defined.

(** X20 on two ids and on two file names. *)
Lemma s3_key_distinct_witness :
  let E := Sample.env 100 true in
  "0" <> "1" /\ "a.csv" <> "b.csv" /\
  _get_s3_key "0" "a.csv" <> _get_s3_key "1" "a.csv" /\
  _get_s3_key "0" "a.csv" <> _get_s3_key "0" "b.csv".
Proof.
  intros E.
  assert ("0" <> "1") as Hid by discriminate.
  assert ("a.csv" <> "b.csv") as Hname by discriminate.
  split; [exact Hid|]. split; [exact Hname|]. split.
  - exact (proj1 (s3_key_distinct (H:=E)) "0" "1" "a.csv" Hid).
  - exact (proj2 (s3_key_distinct (H:=E)) "0" "a.csv" "b.csv" Hname).
Defined.

End ServiceFacts.

(** ** More on the job poller *)

Module JobsMore.

Import Jobs JobsTrace JobsFacts.

Lemma sleeps_snoc_request h job j : sleeps (h ++ [Request job j]) = sleeps h.
Proof. rewrite sleeps_app. unfold sleeps. simpl. lia. Qed.

Lemma sleeps_snoc_sleep h seconds : sleeps (h ++ [Sleep seconds]) = S (sleeps h).
Proof. rewrite sleeps_app. unfold sleeps. simpl. lia. Qed.

Section poller.

Variable client : ApiClient.
Variable id : string.
Variable poll_wait : Z.

(** The events of a run of the loop: no more observations than rounds,
    no more suspensions than observations, every event the call's own;
    and a loop that runs to its end has used every round. *)
Lemma poll_shape : forall (rounds : nat) (h : list Event),
  exists new,
    (poll client id poll_wait rounds h).2 = h ++ new /\
    (observations new <= rounds)%nat /\
    (sleeps new <= observations new)%nat /\
    Forall (own_event id poll_wait) new /\
    ((poll client id poll_wait rounds h).1 = None -> observations new = rounds).
Proof.
  induction rounds as [|rounds IH]; intros h.
  - exists []. simpl. rewrite app_nil_r. repeat split; try constructor; reflexivity.
  - simpl poll. set (j := client id h).
    assert (forall k, observations (Request id j :: k) = S (observations k)) as Hobs
      by reflexivity.
    assert (forall k, sleeps (Request id j :: k) = sleeps k) as Hsl by reflexivity.
    destruct (String.eqb (status j) "PENDING" || String.eqb (status j) "RUNNING").
    { destruct (IH ((h ++ [Request id j]) ++ [Sleep poll_wait]))
        as (new & Hh & Hn & Hs & Hown & Hend).
      exists (Request id j :: Sleep poll_wait :: new).
      assert (observations (Sleep poll_wait :: new) = observations new) as Ho' by reflexivity.
      assert (sleeps (Sleep poll_wait :: new) = S (sleeps new)) as Hs' by reflexivity.
      rewrite Hobs, Hsl, Ho', Hs'.
      split; [rewrite Hh, <- !app_assoc; reflexivity|]. split; [lia|]. split; [lia|].
      split; [repeat constructor; assumption|].
      intros Hnone. rewrite (Hend Hnone). reflexivity. }
    assert ((observations [Request id j] <= S rounds)%nat /\
            (sleeps [Request id j] <= observations [Request id j])%nat /\
            Forall (own_event id poll_wait) [Request id j]) as (Hn1 & Hs1 & Hown1).
    { unfold observations, sleeps. simpl. repeat split; try lia. repeat constructor. }
    destruct (String.eqb (status j) "FAILED");
      [exists [Request id j]; simpl; repeat split; try assumption; discriminate|].
    destruct (String.eqb (status j) "STOPPED");
      [exists [Request id j]; simpl; repeat split; try assumption; discriminate|].
    destruct (String.eqb (status j) "SUCCEEDED");
      [exists [Request id j]; simpl; repeat split; try assumption; discriminate|].
    destruct (IH (h ++ [Request id j])) as (new & Hh & Hn & Hs & Hown & Hend).
    exists (Request id j :: new).
    rewrite Hobs, Hsl.
    split; [rewrite Hh, <- !app_assoc; reflexivity|]. split; [lia|]. split; [lia|].
    split; [constructor; [reflexivity | assumption]|].
    intros Hnone. rewrite (Hend Hnone). reflexivity.
Qed.

(** On statuses the loop does not know, every round is one observation
    and no suspension. *)
Lemma poll_unknown : forall (rounds : nat) (h : list Event),
  (forall h', unknown (status (client id h'))) ->
  exists new,
    poll client id poll_wait rounds h = (None, h ++ new) /\
    observations new = rounds /\ sleeps new = 0%nat.
Proof.
  induction rounds as [|rounds IH]; intros h Hunknown.
  - exists []. simpl. rewrite app_nil_r. repeat split.
  - simpl poll. destruct (Hunknown h) as [Hnt Ht].
    destruct (String.eqb_spec (status (client id h)) "PENDING") as [Hs|_];
      [destruct Hnt; left; exact Hs|].
    destruct (String.eqb_spec (status (client id h)) "RUNNING") as [Hs|_];
      [destruct Hnt; right; exact Hs|].
    destruct (String.eqb_spec (status (client id h)) "FAILED") as [Hs|_];
      [destruct Ht; left; exact Hs|].
    destruct (String.eqb_spec (status (client id h)) "STOPPED") as [Hs|_];
      [destruct Ht; right; left; exact Hs|].
    destruct (String.eqb_spec (status (client id h)) "SUCCEEDED") as [Hs|_];
      [destruct Ht; right; right; exact Hs|].
    simpl. destruct (IH (h ++ [Request id (client id h)]) Hunknown)
      as (new & Hpoll & Hn & Hs).
    exists (Request id (client id h) :: new).
    rewrite Hpoll, <- app_assoc. simpl.
    split; [reflexivity|]. split.
    + change (observations (Request id (client id h) :: new)) with (S (observations new)).
      rewrite Hn. reflexivity.
    + change (sleeps (Request id (client id h) :: new)) with (sleeps new). exact Hs.
Qed.

End poller.
(** X21.  With [retries] at most 1 the loop has no round:
    [wait_for_job] raises the exception that follows the loop without
    any request to the job API and without suspension, whatever the
    state of the job. *)
Theorem wait_for_job_no_round client id retries poll_wait h :
  retries <= 1 ->
  wait_for_job client id retries poll_wait h
    = (Raise (Exception (timeout_message id)), h).
Proof.
  intros Hretries. unfold wait_for_job, range_length.
  replace (Z.to_nat (retries - 1)) with 0%nat by lia. reflexivity.
Qed.

(** X22.  Every run of [wait_for_job] only adds events to the history:
    at most [retries - 1] requests, all for the job asked for, and at
    most as many suspensions as requests, all of [poll_wait] seconds. *)
Theorem wait_for_job_bounds client id retries poll_wait h :
  exists new,
    (wait_for_job client id retries poll_wait h).2 = h ++ new /\
    (observations new <= Z.to_nat (retries - 1))%nat /\
    (sleeps new <= observations new)%nat /\
    Forall (own_event id poll_wait) new.
Proof.
  unfold wait_for_job.
  destruct (poll_shape client id poll_wait (range_length 1 retries) h)
    as (new & Hh & Hn & Hs & Hown & _).
  exists new.
  destruct (poll _ _ _ _ _) as [[outcome|] h']; simpl in Hh |- *;
    repeat split; assumption.
Qed.

(** X23.  A status that is none of PENDING, RUNNING, FAILED, STOPPED and
    SUCCEEDED is polled again at once: with a provider that only reports
    such statuses, [wait_for_job] makes its [retries - 1] requests without
    any suspension between them and raises the exception that follows
    the loop. *)
Theorem wait_for_job_unknown_status client id retries poll_wait h :
  (forall h', unknown (status (client id h'))) ->
  exists new,
    wait_for_job client id retries poll_wait h
      = (Raise (Exception (timeout_message id)), h ++ new) /\
    observations new = Z.to_nat (retries - 1) /\
    sleeps new = 0%nat.
Proof.
  intros Hunknown. unfold wait_for_job.
  destruct (poll_unknown client id poll_wait (range_length 1 retries) h Hunknown)
    as (new & -> & Hn & Hs).
  exists new. repeat split; assumption.
Qed.

(** The three messages differ for every job id. *)
Lemma messages_distinct id :
  "Job " +:+ id +:+ " failed" <> "Job " +:+ id +:+ " stopped" /\
  "Job " +:+ id +:+ " failed" <> timeout_message id /\
  "Job " +:+ id +:+ " stopped" <> timeout_message id.
Proof.
  unfold timeout_message.
  repeat split; intros Heq; apply String.app_inj, String.app_inj in Heq;
    discriminate Heq.
Qed.

(** X25.  The exception that follows the loop stands for a used-up
    budget: when [wait_for_job] raises it, the run has made exactly
    [retries - 1] observations and none of them had a terminal status. *)
Theorem wait_for_job_timeout_means_exhausted client id retries poll_wait h :
  (wait_for_job client id retries poll_wait h).1
    = Raise (Exception (timeout_message id)) ->
  exists new,
    (wait_for_job client id retries poll_wait h).2 = h ++ new /\
    observations new = Z.to_nat (retries - 1) /\
    Forall not_final new.
Proof.
  unfold wait_for_job.
  destruct (poll_trace client id poll_wait (range_length 1 retries) h)
    as (new & Hh & Hout).
  destruct (poll_shape client id poll_wait (range_length 1 retries) h)
    as (new' & Hh' & _ & _ & _ & Hend).
  rewrite Hh in Hh'. apply app_inv_head in Hh'. subst new'.
  destruct (messages_distinct id) as (_ & Hfailed & Hstopped).
  destruct (poll _ _ _ _ _) as [[outcome|] h']; simpl in Hh, Hout, Hend |- *;
    intros Hraise.
  - destruct Hout as (quiet & j & _ & _ & Hterm & Hok & Hf & Hs).
    destruct Hterm as [Ht | [Ht | Ht]].
    + rewrite (Hf Ht) in Hraise. destruct Hfailed. congruence.
    + rewrite (Hs Ht) in Hraise. destruct Hstopped. congruence.
    + rewrite (Hok Ht) in Hraise. discriminate Hraise.
  - exists new. split; [exact Hh|]. split; [apply Hend; reflexivity | exact Hout].
Qed.

(** X21 on a job that has already succeeded, polled with one retry. *)
Lemma wait_for_job_no_round_witness :
  1 <= 1 /\
  wait_for_job (Sample.scripted ["SUCCEEDED"]) "job-1" 1 30 []
    = (Raise (Exception (timeout_message "job-1")), []).
Proof.
  assert (1 <= 1) as Hretries by lia.
  split; [exact Hretries|].
  exact (wait_for_job_no_round (Sample.scripted ["SUCCEEDED"]) "job-1" 1 30 [] Hretries).
Defined.

(** X23 on a job whose status is always UNKNOWN, polled with four
    retries. *)
Lemma wait_for_job_unknown_status_witness :
  let run := wait_for_job SampleService.always_unknown "job-1" 4 30 [] in
  (forall h', unknown (status (SampleService.always_unknown "job-1" h'))) /\
  run.1 = Raise (Exception (timeout_message "job-1")) /\
  observations run.2 = 3%nat /\ sleeps run.2 = 0%nat.
Proof.
  intros run.
  assert (forall h', unknown (status (SampleService.always_unknown "job-1" h')))
    as Hunknown.
  { intros h'. split.
    - intros [Hs | Hs]; discriminate Hs.
    - intros [Hs | [Hs | Hs]]; discriminate Hs. }
  destruct (wait_for_job_unknown_status SampleService.always_unknown "job-1" 4 30 []
              Hunknown) as (new & Hrun & Hn & Hs).
  fold run in Hrun. rewrite Hrun. simpl.
  split; [exact Hunknown|]. split; [reflexivity|]. split; [exact Hn | exact Hs].
Defined.

(** X25 on a job that is always RUNNING, polled with three retries. *)
Lemma wait_for_job_timeout_means_exhausted_witness :
  let run := wait_for_job Sample.always_running "job-1" 3 30 [] in
  run.1 = Raise (Exception (timeout_message "job-1")) /\
  exists new, run.2 = [] ++ new /\ observations new = 2%nat /\ Forall not_final new.
Proof.
  intros run.
  assert (run.1 = Raise (Exception (timeout_message "job-1"))) as Hraise by reflexivity.
  split; [exact Hraise|].
  exact (wait_for_job_timeout_means_exhausted Sample.always_running "job-1" 3 30 []
           Hraise).
Defined.

End JobsMore.

(** ** The job poller with the failures of the job API *)

Module JobsFaultsFacts.

Import JobsFaults.

Section poller.

Variable client : ApiClient.
Variable id : string.
Variable poll_wait : Z.


End poller.

(** *** The two models of the poller agree on clients that answer *)

Lemma jobinfo_document j : jobinfo (document j) = j.
Proof. destruct j. reflexivity. Qed.

Lemma history_app h k : history (h ++ k) = history h ++ history k.
Proof.
  induction h as [|[job d | job e | seconds] h IH]; simpl;
    [reflexivity | rewrite IH; reflexivity | exact IH | rewrite IH; reflexivity].
Qed.

Lemma history_answered h job j :
  history (h ++ [Answered job (document j)]) = history h ++ [Jobs.Request job j].
Proof. rewrite history_app. simpl. rewrite jobinfo_document. reflexivity. Qed.

Lemma history_sleep h seconds :
  history (h ++ [Sleep seconds]) = history h ++ [Jobs.Sleep seconds].
Proof. rewrite history_app. reflexivity. Qed.

(** Against a client that answers every request with a document that
    has a status, the loop with failures does what the loop of [Jobs]
    does: the same decision, and the same events. *)
Lemma poll_answering (c : Jobs.ApiClient) id poll_wait : forall rounds h decision hj,
  Jobs.poll c id poll_wait rounds (history h) = (decision, hj) ->
  exists new,
    hj = history h ++ new /\
    poll (answering c) id poll_wait rounds h
      = (match decision with
         | Some (Return j) => Some (Return (document j))
         | Some (Raise e) => Some (Raise e)
         | None => None
         end, h ++ map event new).
Proof.
  induction rounds as [|rounds IH]; intros h decision hj Hrun.
  - injection Hrun as <- <-. exists []. simpl. rewrite !app_nil_r. split; reflexivity.
  - cbn [Jobs.poll poll] in Hrun |- *.
    change (answering c id h) with (Return (document (c id (history h)))).
    set (j := c id (history h)) in *. cbn [doc_status document].
    destruct (String.eqb (Jobs.status j) "PENDING"
              || String.eqb (Jobs.status j) "RUNNING").
    { rewrite <- history_answered, <- history_sleep in Hrun.
      destruct (IH _ _ _ Hrun) as (new & -> & Hf).
      exists ([Jobs.Request id j; Jobs.Sleep poll_wait] ++ new).
      rewrite Hf, history_sleep, history_answered.
      simpl. rewrite <- !app_assoc. split; reflexivity. }
    destruct (String.eqb (Jobs.status j) "FAILED");
      [injection Hrun as <- <-; exists [Jobs.Request id j]; split; reflexivity|].
    destruct (String.eqb (Jobs.status j) "STOPPED");
      [injection Hrun as <- <-; exists [Jobs.Request id j]; split; reflexivity|].
    destruct (String.eqb (Jobs.status j) "SUCCEEDED");
      [injection Hrun as <- <-; exists [Jobs.Request id j]; split; reflexivity|].
    rewrite <- history_answered in Hrun.
    destruct (IH _ _ _ Hrun) as (new & -> & Hf).
    exists ([Jobs.Request id j] ++ new).
    rewrite Hf, history_answered.
    simpl. rewrite <- !app_assoc. split; reflexivity.
Qed.

(** The same for [wait_for_job]: on a client that answers every request
    with a document that has a status, what is proved of
    [Jobs.wait_for_job] holds of the run with failures. *)
Lemma wait_for_job_answering (c : Jobs.ApiClient) id retries poll_wait h outcome hj :
  Jobs.wait_for_job c id retries poll_wait (history h) = (outcome, hj) ->
  exists new,
    hj = history h ++ new /\
    wait_for_job (answering c) id retries poll_wait h
      = (match outcome with
         | Return j => Return (document j)
         | Raise e => Raise e
         end, h ++ map event new).
Proof.
  unfold wait_for_job, Jobs.wait_for_job.
  destruct (Jobs.poll c id poll_wait (Jobs.range_length 1 retries) (history h))
    as [decision hj'] eqn:Hrun.
  destruct (poll_answering c id poll_wait _ _ _ _ Hrun) as (new & -> & Hf).
  rewrite Hf.
  destruct decision as [[j|e]|]; intros [= <- <-]; exists new; split; reflexivity.
Qed.



End JobsFaultsFacts.
